(** * Ullekhanam REST handlers: a shallow embedding

    The handlers of [vedavaapi/ullekhanam/api/v1/rest.py] are written here as
    functions in a state-and-exception monad over the document collection.
    ([vedavaapi/ullekhanam/api_v1.py] is the earlier copy of the same
    handlers, without the [force_if_not_system_inferred] argument.)
    The classes of [sanskrit_data] and [docimage] that the handlers call are
    not part of the repository: their behaviour follows the contracts of the
    specification and is marked as such where it is defined. *)

From Stdlib Require Import QArith Ascii.
From stdpp Require Import gmap strings list fin_maps pretty.
Close Scope Q_scope.
Local Open Scope string_scope.
Local Open Scope Z_scope.
Local Open Scope list_scope.

(** ** Data model *)

(** [ullekhanam.Rectangle]: a pixel rectangle [{x, y, w, h}]. *)
Record Rectangle := {
  rect_x : Z;
  rect_y : Z;
  rect_w : Z;
  rect_h : Z
}.

(** [ullekhanam.DataSource]: provenance of an annotation. *)
Record DataSource := {
  source_type : string;
  source_id : string
}.

(** A target relation: the container it names and its payload, a rectangle for
    an [ImageTarget], an ordinal position for a [BookPositionTarget]. *)
Record Target := {
  container_id : string;
  rectangle : option Rectangle;
  position : option Z
}.

(** A JSON object of the corpus. An attribute that a Python object may lack is
    an [option]; [jsonClass] is the type tag. *)
Record Entity := {
  _id : option string;
  jsonClass : string;
  targets : list Target;
  source : option DataSource;
  title : option string;
  base_data : option string;
  portion_class : option string
}.

(** [JsonObjectNode]: [{"content": ..., "children": [...]}]. *)
#[local] Set Warnings "-register-all".
Inductive TreeNode := Node {
  content : Entity;
  children : list TreeNode
}.

(** A detected region: the indexable coordinates [[x0, y0, x1, y1, ...]] and
    the [score] attribute when the detector's object carries one. Coordinates
    are exact rationals; on integer pixel coordinates Python's arithmetic on
    them is exact as well. *)
Record Region := {
  coords : list Q;
  score : option Q
}.

(** [docimage.DocImage], as the object the handler sees: the value its
    [find_text_regions] method yields (the second component of the pair the
    method returns is never used by the handler). *)
Record DocImage := {
  text_regions : list Region
}.

(** [werkzeug.datastructures.FileStorage]: only the client's file name is read
    by the handler itself. *)
Record UploadedFile := {
  filename : string
}.

(** ** Exceptions, the world and the handler monad *)

Inductive Exn :=
| AttributeError
| IndexError
| ValidationError
| TargetValidationError
| IOError.

(** The collection of documents keyed by [_id], and a count of the calls made
    to the region detector (the detector has no other observable effect). *)
Record World := {
  colln : gmap string Entity;
  detect_calls : nat
}.

Definition set_colln (c : gmap string Entity) (w : World) : World :=
  {| colln := c; detect_calls := detect_calls w |}.

(** A computation reads and writes the world and either raises or returns.
    What was written before an exception stays written. *)
Definition M (A : Type) : Type := World -> World * (Exn + A).

Definition ret {A} (a : A) : M A := fun w => (w, inr a).

Definition raise {A} (e : Exn) : M A := fun w => (w, inl e).

Definition bind {A B} (m : M A) (k : A -> M B) : M B :=
  fun w =>
    match m w with
    | (w', inl e) => (w', inl e)
    | (w', inr a) => k a w'
    end.

(** [try: m except: ...] with the outcome reified. *)
Definition try {A} (m : M A) : M (Exn + A) :=
  fun w => let (w', r) := m w in (w', inr r).

(** A pure step that may raise. *)
Definition lift {A} (r : Exn + A) : M A := fun w => (w, r).

(** Reading an attribute that may be missing. *)
Definition getattr {A} (o : option A) : Exn + A :=
  match o with
  | Some a => inr a
  | None => inl AttributeError
  end.

Notation "x <- m ;; k" := (bind m (fun x => k))
  (at level 100, m at next level, right associativity).
Notation "m ;;; k" := (bind m (fun _ => k))
  (at level 100, right associativity).

(** ** What the handlers take from outside the repository *)

(** The JSON schemas of [sanskrit_data], [werkzeug]'s file-name sanitiser, the
    file-system and imaging steps that store one page's files (they answer
    with the exception they raise, if any), and the depth [fill_descendents]
    uses when the caller passes none. *)
Class Externals := {
  schema_valid : Entity -> bool;
  secure_filename : string -> string;
  save_page_files : Entity -> UploadedFile -> option Exn;
  default_depth : Z
}.

(** ** Constructors ([from_details]) *)

(** The [from_details] constructors of [sanskrit_data] are not in the
    repository. Each is taken to build the unpersisted object (no id) that
    holds the fields it is given. *)

(** Modelled from the spec: [ullekhanam.Rectangle.from_details] is not in
    the repository; a rectangle is [{x, y, w, h}]. *)
Definition Rectangle_from_details (x y w h : Z) : Rectangle :=
  {| rect_x := x; rect_y := y; rect_w := w; rect_h := h |}.

(** Modelled from the spec: [ullekhanam.ImageTarget.from_details] is not in
    the repository; a target names a container and carries a rectangle. *)
Definition ImageTarget_from_details (cid : string) (r : Rectangle) : Target :=
  {| container_id := cid; rectangle := Some r; position := None |}.

(** Modelled from the spec: [books.BookPositionTarget.from_details] is not
    in the repository; a target names a container and carries an ordinal
    position. Whether the library attaches every position it is given is not
    known from here: what the statements on uploads below conclude is about
    the container of a page's target and never about its position. *)
Definition BookPositionTarget_from_details (pos : Z) (cid : string) : Target :=
  {| container_id := cid; rectangle := None; position := Some pos |}.

(** Modelled from the spec: [ullekhanam.DataSource.from_details] is not in
    the repository; a source is [{source_type, id}]. *)
Definition DataSource_from_details (ty id : string) : DataSource :=
  {| source_type := ty; source_id := id |}.

(** [ullekhanam.ImageAnnotation.get_wire_typeid()]: the type tag of the
    class, the [jsonClass] its objects carry. *)
Definition ImageAnnotation_wire_typeid : string := "ImageAnnotation".

(** Modelled from the spec: [ullekhanam.ImageAnnotation.from_details] is not
    in the repository; an annotation entity has its targets and its source
    and no id before it is persisted. *)
Definition ImageAnnotation_from_details (ts : list Target) (src : DataSource)
  : Entity :=
  {| _id := None; jsonClass := ImageAnnotation_wire_typeid; targets := ts;
     source := Some src; title := None; base_data := None;
     portion_class := None |}.

(** Modelled from the spec: [books.BookPortion.from_details] is not in the
    repository; a book portion has its title, [base_data], [portion_class]
    and targets and no id before it is persisted. *)
Definition BookPortion_from_details (ttl bd pc : string) (ts : list Target)
  : Entity :=
  {| _id := None; jsonClass := "BookPortion"; targets := ts; source := None;
     title := Some ttl; base_data := Some bd; portion_class := Some pc |}.

Definition set_id (i : string) (e : Entity) : Entity :=
  {| _id := Some i; jsonClass := jsonClass e; targets := targets e;
     source := source e; title := title e; base_data := base_data e;
     portion_class := portion_class e |}.

(** ** The entity model of [sanskrit_data] *)

Module JsonObject.

(** Modelled from the spec: [JsonObject.from_id] is not in the repository;
    [fetchById(store, id) -> Entity | NotFound]. *)
Definition from_id (c : gmap string Entity) (id : string) : option Entity :=
  c !! id.

Definition names_container (cid : string) (e : Entity) : bool :=
  existsb (fun t => String.eqb (container_id t) cid) (targets e).

Definition has_type (entity_type : option string) (e : Entity) : bool :=
  match entity_type with
  | Some ty => String.eqb (jsonClass e) ty
  | None => true
  end.

(** Modelled from the spec: [get_targetting_entities] is not in the
    repository; [findTargetters] returns the entities whose targets include
    one naming the container, optionally of one variant only, in an order
    that the state of the store alone decides. Nothing targets an object that
    has no id. *)
Definition get_targetting_entities (c : gmap string Entity) (e : Entity)
    (entity_type : option string) : list Entity :=
  match _id e with
  | Some cid =>
      List.filter (fun d => names_container cid d && has_type entity_type d)
                  (map snd (map_to_list c))
  | None => []
  end.

Definition targets_resolvable (c : gmap string Entity) (e : Entity) : bool :=
  forallb (fun t => bool_decide (is_Some (c !! container_id t))) (targets e).

Section WithExternals.
Context `{Externals}.

(** Modelled from the spec: [JsonObject.update_collection] is not in the
    repository; [upsert] validates that the target references exist, assigns
    an id if absent and writes to the store; it fails with
    [TargetValidationError] if a target's container id is unresolvable and with
    a schema [ValidationError] on field-shape errors. The store picks an id
    that no document has. The actor takes no part in the contract. *)
Definition update_collection (e : Entity) (user : option string) : M Entity :=
  fun w =>
    if negb (targets_resolvable (colln w) e) then (w, inl TargetValidationError)
    else if negb (schema_valid e) then (w, inl ValidationError)
    else
      let i := default (fresh (dom (colln w))) (_id e) in
      let e' := set_id i e in
      (set_colln (<[i := e']> (colln w)) w, inr e').

End WithExternals.

(** Modelled from the spec: [JsonObject.delete_in_collection] is not in the
    repository; [delete] removes the entity and is idempotent: deleting an id
    the store does not have is a no-op, not an error. An object without an id
    names nothing to remove. *)
Definition delete_in_collection (e : Entity) (user : option string) : M unit :=
  fun w =>
    match _id e with
    | Some i => (set_colln (delete i (colln w)) w, inr tt)
    | None => (w, inr tt)
    end.

End JsonObject.

Module JsonObjectNode.

Definition from_details (e : Entity) : TreeNode :=
  {| content := e; children := [] |}.

Section WithExternals.
Context `{Externals}.

(** Modelled from the spec: [JsonObjectNode.update_collection] is not in the
    repository; the handler's contract is to add a tree of entities and to
    answer with the same tree with ids. The content is upserted, then each
    child tree in turn, so that a child may target its parent. *)
Fixpoint update_collection (node : TreeNode) (user : option string)
    {struct node} : M TreeNode :=
  match node with
  | Node c ch =>
      c' <- JsonObject.update_collection c user ;;
      ch' <- (fix go (l : list TreeNode) : M (list TreeNode) :=
                match l with
                | [] => ret []
                | n :: r =>
                    n' <- update_collection n user ;;
                    r' <- go r ;;
                    ret (n' :: r')
                end) ch ;;
      ret (Node c' ch')
  end.

End WithExternals.

(** Modelled from the spec: [JsonObjectNode.fill_descendents] is not in the
    repository; [buildTree] calls [findTargetters] at each node and recurses
    with [maxDepth - 1] on each result; at depth 0 the node is a leaf. *)
Fixpoint build_tree (c : gmap string Entity) (entity_type : option string)
    (depth : nat) (e : Entity) : TreeNode :=
  match depth with
  | O => Node e []
  | S d =>
      Node e (map (build_tree c entity_type d)
                  (JsonObject.get_targetting_entities c e entity_type))
  end.

(** A depth that is not positive leaves the node without children. *)
Definition fill_descendents (c : gmap string Entity) (node : TreeNode)
    (depth : Z) (entity_type : option string) : TreeNode :=
  build_tree c entity_type (Z.to_nat depth) (content node).

(** The entities of a tree removed one by one, the children before the
    content. *)
Fixpoint delete_tree (node : TreeNode) (user : option string)
    {struct node} : M unit :=
  match node with
  | Node c ch =>
      (fix go (l : list TreeNode) : M unit :=
         match l with
         | [] => ret tt
         | n :: r => delete_tree n user ;;; go r
         end) ch ;;;
      JsonObject.delete_in_collection c user
  end.

Section WithExternals.
Context `{Externals}.

(** Modelled from the spec: [JsonObjectNode.delete_in_collection] is not in
    the repository; it deletes the entity tree of the node's content: the
    entity with the descendants [buildTree] finds for it in the store (to the
    depth used when none is given), each removed by [delete], the children
    before the content. Deleting an id the store does not have is a no-op,
    and so is deleting an object without an id. *)
Definition delete_in_collection (node : TreeNode) (user : option string)
  : M unit :=
  fun w =>
    match _id (content node) with
    | Some i =>
        if bool_decide (is_Some (colln w !! i)) then
          delete_tree (fill_descendents (colln w) node default_depth None)
            user w
        else (w, inr tt)
    | None => (w, inr tt)
    end.

End WithExternals.

End JsonObjectNode.

(** ** Python's built-ins used by the handlers *)

(** [int(q)]: truncation towards zero. *)
Definition py_int (q : Q) : Z := Z.quot (Qnum q) (Zpos (Qden q)).

(** [reg[i]] on a sequence: [IndexError] out of range. *)
Definition py_index {A} (l : list A) (i : nat) : Exn + A :=
  match nth_error l i with
  | Some a => inr a
  | None => inl IndexError
  end.

(** [p.rfind(ch)]: the last index of [ch], or [-1]. *)
Fixpoint rfind (ch : Ascii.ascii) (p : string) : Z :=
  match p with
  | EmptyString => -1
  | String c r =>
      let i := rfind ch r in
      if 0 <=? i then i + 1
      else if Ascii.eqb c ch then 0 else -1
  end.

(** The slices [p[:n]] and [p[n:]]. *)
Fixpoint str_take (n : nat) (p : string) : string :=
  match n, p with
  | S k, String c r => String c (str_take k r)
  | _, _ => EmptyString
  end.

Fixpoint str_drop (n : nat) (p : string) : string :=
  match n, p with
  | S k, String _ r => str_drop k r
  | _, _ => p
  end.

(** [os.path.basename] (posixpath): what follows the last slash. *)
Definition basename (p : string) : string :=
  str_drop (Z.to_nat (rfind "/"%char p + 1)) p.

(** The loop of [genericpath._splitext] that skips leading dots: whether a
    character other than the dot occurs in [p[filenameIndex:dotIndex]]. *)
Fixpoint splitext_scan (p : string) (filenameIndex : nat) (steps : nat)
  : bool :=
  match steps with
  | O => false
  | S k =>
      match String.get filenameIndex p with
      | Some c =>
          if Ascii.eqb c "."%char then splitext_scan p (S filenameIndex) k
          else true
      | None => false
      end
  end.

(** [os.path.splitext] (posixpath): the extension starts at the last dot of
    the last path component, unless only dots precede it there. *)
Definition splitext (p : string) : string * string :=
  let sepIndex := rfind "/"%char p in
  let dotIndex := rfind "."%char p in
  if (sepIndex <? dotIndex)
     && splitext_scan p (Z.to_nat (sepIndex + 1))
                      (Z.to_nat (dotIndex - (sepIndex + 1)))
  then (str_take (Z.to_nat dotIndex) p, str_drop (Z.to_nat dotIndex) p)
  else (p, EmptyString).

(** ** rest.py *)

Definition is_extension_allowed (filename : string)
    (allowed_extensions_with_dot : list string) : bool :=
  let '(fname, ext) := splitext filename in
  existsb (String.eqb ext) allowed_extensions_with_dot.

(** The answer of a handler: a body and an HTTP status code. Of an error
    answer the message is kept; tracebacks ([details], [exception_dump]) are
    left out, and so is the rendering of the set of extensions in the message
    of the 418 answer of [/books], whose order Python leaves open. The class
    of the exception in the 419 message is given by its name. *)
Inductive Body :=
| ErrorBody (message : string)
| JsonTree (t : TreeNode)
| JsonTrees (ts : list TreeNode)
| EmptyDict
| EmptyString_.

Record Response := {
  body : Body;
  code : Z
}.

(** [vedavaapi.common.api_common.error_response]. *)
Definition error_response (message : string) (c : Z) : Response :=
  {| body := ErrorBody message; code := c |}.

Definition exn_name (e : Exn) : string :=
  match e with
  | AttributeError => "AttributeError"
  | IndexError => "IndexError"
  | ValidationError => "ValidationError"
  | TargetValidationError => "TargetValidationError"
  | IOError => "IOError"
  end.

(** What a request carries besides its payload: the outcome of
    [check_permission(myservice().name)] and of [get_user()]. *)
Record Session := {
  permitted : bool;
  user : option string
}.

(** *** [/pages/<page_id>/annotations] *)

Module AllPageAnnotationsHandler.

(** [page_image.find_text_regions()]. *)
Definition find_text_regions (page_image : DocImage) : M (list Region) :=
  fun w =>
    ({| colln := colln w; detect_calls := S (detect_calls w) |},
     inr (text_regions page_image)).

Definition region_to_rectangle (reg : Region) : Exn + Rectangle :=
  match py_index (coords reg) 0, py_index (coords reg) 1,
        py_index (coords reg) 2, py_index (coords reg) 3 with
  | inr r0, inr r1, inr r2, inr r3 =>
      inr (Rectangle_from_details (py_int r0) (py_int r1)
             (py_int (r2 - r0)%Q) (py_int (r3 - r1)%Q))
  | _, _, _, _ => inl IndexError
  end.

(** [del region.score] when the attribute is there. *)
Definition del_score (region : Region) : Region :=
  {| coords := coords region; score := None |}.

(** [x.source.source_type == 'system_inferred'], which needs the attribute. *)
Definition is_system_inferred (x : Entity) : Exn + bool :=
  match getattr (source x) with
  | inr src => inr (String.eqb (source_type src) "system_inferred")
  | inl e => inl e
  end.

(** [list(filter(lambda x: ..., known_annotations))]. *)
Fixpoint filter_system_inferred (l : list Entity) : Exn + list Entity :=
  match l with
  | [] => inr []
  | x :: r =>
      match is_system_inferred x with
      | inl e => inl e
      | inr b =>
          match filter_system_inferred r with
          | inl e => inl e
          | inr r' => inr (if b then x :: r' else r')
          end
      end
  end.

Section WithExternals.
Context `{Externals}.

(** The loop over the detected regions (the body of [for region in
    detected_regions]). *)
Fixpoint annotate_regions (page : Entity) (detected_regions : list Region)
    (new_annotations : list Entity) : M (list Entity) :=
  match detected_regions with
  | [] => ret new_annotations
  | region :: rest =>
      let region := del_score region in
      page_id <- lift (getattr (_id page)) ;;
      rect <- lift (region_to_rectangle region) ;;
      let target := ImageTarget_from_details page_id rect in
      let annotation :=
        ImageAnnotation_from_details [target]
          (DataSource_from_details "system_inferred" "pyCV2") in
      annotation <- JsonObject.update_collection annotation None ;;
      annotate_regions page rest (new_annotations ++ [annotation])
  end.

(** From [page_image.find_text_regions()] to the end of the method. *)
Definition detect_and_annotate (page : Entity) (page_image : DocImage)
  : M (list Entity) :=
  detected_regions <- find_text_regions page_image ;;
  annotate_regions page detected_regions [].

Definition update_image_annotations (page : Entity) (page_image : DocImage)
    (force_if_not_system_inferred : bool) : M (list Entity) :=
  fun w =>
    let known_annotations :=
      JsonObject.get_targetting_entities (colln w) page
        (Some ImageAnnotation_wire_typeid) in
    match known_annotations with
    | _ :: _ =>
        if force_if_not_system_inferred then
          match filter_system_inferred known_annotations with
          | inl e => (w, inl e)
          | inr (_ :: _) => (w, inr known_annotations)
          | inr [] => detect_and_annotate page page_image w
          end
        else (w, inr known_annotations)
    | [] => detect_and_annotate page page_image w
    end.

End WithExternals.

End AllPageAnnotationsHandler.

(** *** [/entities/<id>/targetters] *)

Module EntityTargettersHandler.

(** [get_parser]: [depth] is an [int] with default 10. *)
Definition parse_depth (depth : option Z) : Z := default 10 depth.

(** [common_data_containers.UllekhanamJsonObject()] with its [_id] set. *)
Definition entity_with_id (id : string) : Entity :=
  {| _id := Some id; jsonClass := "UllekhanamJsonObject"; targets := [];
     source := None; title := None; base_data := None;
     portion_class := None |}.

Definition get (id : string) (depth : option Z)
    (targetter_class : option string) : M Response :=
  fun w =>
    let entity := entity_with_id id in
    let depth := parse_depth depth in
    let colln := colln w in
    let targetters :=
      JsonObject.get_targetting_entities colln entity targetter_class in
    let targetter_nodes := map JsonObjectNode.from_details targetters in
    let targetter_nodes :=
      map (fun node =>
             JsonObjectNode.fill_descendents colln node (depth - 1)
               targetter_class) targetter_nodes in
    (w, inr {| body := JsonTrees targetter_nodes; code := 200 |}).

End EntityTargettersHandler.

(** *** [/entities/<id>] *)

Module EntityHandler.

(** [get_parser]: [depth] is an [int] with default 1. *)
Definition parse_depth (depth : option Z) : Z := default 1 depth.

Definition get (id : string) (depth : option Z) : M Response :=
  fun w =>
    let depth := parse_depth depth in
    let colln := colln w in
    match JsonObject.from_id colln id with
    | None => (w, inr (error_response "No such entity id" 404))
    | Some entity =>
        let node := JsonObjectNode.from_details entity in
        let node := JsonObjectNode.fill_descendents colln node depth None in
        (w, inr {| body := JsonTree node; code := 200 |})
    end.

End EntityHandler.

(** *** [/entities] *)

Module EntityListHandler.

Section WithExternals.
Context `{Externals}.

(** The loop [for node in nodes] of [post]: either the error answer of the
    first node that fails validation, or the nodes with their ids. An
    exception of another class is not caught. *)
Fixpoint post_nodes (session : Session) (nodes : list TreeNode)
  : M (Response + list TreeNode) :=
  match nodes with
  | [] => ret (inr [])
  | node :: rest =>
      r <- try (JsonObjectNode.update_collection node (user session)) ;;
      match r with
      | inl ValidationError =>
          ret (inl (error_response
                      "Some input object does not fit the schema." 417))
      | inl TargetValidationError =>
          ret (inl (error_response "Target validation failed." 418))
      | inl e => raise e
      | inr node' =>
          r' <- post_nodes session rest ;;
          ret (match r' with
               | inl resp => inl resp
               | inr rest' => inr (node' :: rest')
               end)
      end
  end.

Definition post (session : Session) (nodes : list TreeNode) : M Response :=
  if negb (permitted session) then
    ret {| body := EmptyString_; code := 401 |}
  else
    r <- post_nodes session nodes ;;
    ret (match r with
         | inl resp => resp
         | inr nodes' => {| body := JsonTrees nodes'; code := 200 |}
         end).

Fixpoint delete_nodes (session : Session) (nodes : list TreeNode) : M unit :=
  match nodes with
  | [] => ret tt
  | node :: rest =>
      JsonObjectNode.delete_in_collection node (user session) ;;;
      delete_nodes session rest
  end.

Definition delete (session : Session) (nodes : list TreeNode) : M Response :=
  if negb (permitted session) then
    ret {| body := EmptyString_; code := 401 |}
  else
    delete_nodes session nodes ;;;
    ret {| body := EmptyDict; code := 200 |}.

End WithExternals.

End EntityListHandler.

(** *** [/books] *)

Module BookList.

Definition allowed_extensions : list string := [".jpg"; ".png"; ".gif"].

(** The form of a [POST /books] request: [book_json] once unpickled, and the
    files of [in_files]. *)
Record Upload := {
  book_json : Entity;
  in_files : list UploadedFile
}.

(** The first check of [post] on the book: it has [base_data] equal to
    ["image"] and is a [BookPortion]. *)
Definition is_image_book (book : Entity) : bool :=
  match base_data book with
  | Some bd => String.eqb bd "image" && String.eqb (jsonClass book) "BookPortion"
  | None => false
  end.

Section WithExternals.
Context `{Externals}.

Definition input_filename (uploaded_file : UploadedFile) : string :=
  secure_filename (basename (filename uploaded_file)).

(** The loop that checks the files: the name of the first file whose
    extension is not allowed, if there is one. *)
Fixpoint check_files (files : list UploadedFile) : option string :=
  match files with
  | [] => None
  | uploaded_file :: rest =>
      if negb (is_extension_allowed (input_filename uploaded_file)
                 allowed_extensions)
      then Some (input_filename uploaded_file)
      else check_files rest
  end.

(** The body of the [try]: one page entity per file, then its files. *)
Fixpoint save_pages (session : Session) (book : Entity) (page_index : Z)
    (files : list UploadedFile) : M unit :=
  match files with
  | [] => ret tt
  | uploaded_file :: rest =>
      let page_index := page_index + 1 in
      book_id <- lift (getattr (_id book)) ;;
      let page :=
        BookPortion_from_details ("pg_" +:+ pretty page_index) "image" "page"
          [BookPositionTarget_from_details page_index book_id] in
      page <- JsonObject.update_collection page (user session) ;;
      match save_page_files page uploaded_file with
      | Some e => raise e
      | None => save_pages session book page_index rest
      end
  end.

Definition post (session : Session) (form : Upload) : M Response :=
  if negb (permitted session) then ret (error_response "Unauthorized" 401)
  else
    let book := book_json form in
    if negb (is_image_book book) then
      ret (error_response "Only image books can be uploaded with this API" 417)
    else
      match _id book with
      | Some i =>
          ret (error_response ("overwriting " +:+ i +:+ " is not allowed") 405)
      | None =>
          match check_files (in_files form) with
          | Some name =>
              ret (error_response
                     ("Only these extensions are allowed, but filename is "
                        +:+ name) 418)
          | None =>
              book <- JsonObject.update_collection book (user session) ;;
              r <- try (save_pages session book (-1) (in_files form)) ;;
              match r with
              | inl e =>
                  let book_portion_node := JsonObjectNode.from_details book in
                  JsonObjectNode.delete_in_collection book_portion_node None ;;;
                  ret (error_response
                         ("Unexpected error while saving files: "
                            +:+ exn_name e) 419)
              | inr _ =>
                  fun w =>
                    let book_portion_node := JsonObjectNode.from_details book in
                    let book_portion_node :=
                      JsonObjectNode.fill_descendents (colln w)
                        book_portion_node default_depth None in
                    (w, inr {| body := JsonTree book_portion_node;
                               code := 200 |})
              end
          end
      end.

End WithExternals.

End BookList.

(** *** [GET /pages/<page_id>/annotations] *)

Module PageAnnotationsRoute.

Section WithExternals.
Context `{Externals}.

(** [AllPageAnnotationsHandler.get]. [load_image page] stands for
    [DocImage.from_path(os.path.join(page_dir_path(page), 'content.jpg'))],
    which is called before the annotations are looked up and raises when the
    file cannot be read; the argument [force_if_not_system_inferred] is an
    [int] that [bool(...)] turns into the flag. *)
Definition get (load_image : Entity -> Exn + DocImage) (page_id : string)
    (force_if_not_system_inferred : Z) : M Response :=
  fun w =>
    match JsonObject.from_id (colln w) page_id with
    | None => (w, inr (error_response "No such book portion id" 404))
    | Some page =>
        (page_image <- lift (load_image page) ;;
         image_annotations <-
           AllPageAnnotationsHandler.update_image_annotations page page_image
             (negb (force_if_not_system_inferred =? 0)) ;;
         fun w' =>
           let image_annotation_nodes :=
             map JsonObjectNode.from_details image_annotations in
           let image_annotation_nodes :=
             map (fun node =>
                    JsonObjectNode.fill_descendents (colln w') node
                      default_depth None) image_annotation_nodes in
           (w', inr {| body := JsonTrees image_annotation_nodes;
                       code := 200 |})) w
    end.

End WithExternals.

End PageAnnotationsRoute.

(** *** api_v1.py, the earlier copy of the handlers *)

Module ApiV1.

Section WithExternals.
Context `{Externals}.

(** [AllPageAnnotationsHandler.update_image_annotations] of api_v1.py: no
    force argument; from [find_text_regions()] on, the text is that of
    rest.py. *)
Definition update_image_annotations (page : Entity) (page_image : DocImage)
  : M (list Entity) :=
  fun w =>
    let known_annotations :=
      JsonObject.get_targetting_entities (colln w) page
        (Some ImageAnnotation_wire_typeid) in
    match known_annotations with
    | _ :: _ => (w, inr known_annotations)
    | [] => AllPageAnnotationsHandler.detect_and_annotate page page_image w
    end.

(** [BookList.post] of api_v1.py. [db_found] tells whether [get_db()] gave a
    database; [book.base_data] is read without a [hasattr] guard. *)
Definition post (db_found : bool) (session : Session) (form : BookList.Upload)
  : M Response :=
  if negb (permitted session) then ret (error_response "Unauthorized" 401)
  else if negb db_found then ret (error_response "No such repo id" 404)
  else
    let book := BookList.book_json form in
    bd <- lift (getattr (base_data book)) ;;
    if negb (String.eqb bd "image")
       || negb (String.eqb (jsonClass book) "BookPortion") then
      ret (error_response "Only image books can be uploaded with this API" 417)
    else
      match _id book with
      | Some i =>
          ret (error_response ("overwriting " +:+ i +:+ " is not allowed") 405)
      | None =>
          match BookList.check_files (BookList.in_files form) with
          | Some name =>
              ret (error_response
                     ("Only these extensions are allowed, but filename is "
                        +:+ name) 418)
          | None =>
              book <- JsonObject.update_collection book (user session) ;;
              r <- try (BookList.save_pages session book (-1)
                          (BookList.in_files form)) ;;
              match r with
              | inl e =>
                  let book_portion_node := JsonObjectNode.from_details book in
                  JsonObjectNode.delete_in_collection book_portion_node None ;;;
                  ret (error_response
                         ("Unexpected error while saving files: "
                            +:+ exn_name e) 419)
              | inr _ =>
                  fun w =>
                    let book_portion_node := JsonObjectNode.from_details book in
                    let book_portion_node :=
                      JsonObjectNode.fill_descendents (colln w)
                        book_portion_node default_depth None in
                    (w, inr {| body := JsonTree book_portion_node;
                               code := 200 |})
              end
          end
      end.

End WithExternals.

End ApiV1.

(** *** [werkzeug.utils.secure_filename] *)

Module Werkzeug.

(** White space for [str.split()], among the ASCII characters. *)
Definition is_space (c : Ascii.ascii) : bool :=
  let n := nat_of_ascii c in
  ((9 <=? n)%nat && (n <=? 13)%nat) || ((28 <=? n)%nat && (n <=? 32)%nat).

(** The characters that [_filename_ascii_strip_re], [[^A-Za-z0-9_.-]], lets
    stand. *)
Definition is_filename_char (c : Ascii.ascii) : bool :=
  let n := nat_of_ascii c in
  ((65 <=? n)%nat && (n <=? 90)%nat) || ((97 <=? n)%nat && (n <=? 122)%nat)
  || ((48 <=? n)%nat && (n <=? 57)%nat)
  || (n =? 95)%nat || (n =? 46)%nat || (n =? 45)%nat.

(** [filename.split()]: the maximal runs without white space; [word] is the
    run being read. *)
Fixpoint split (filename : string) (word : string) : list string :=
  match filename with
  | EmptyString => if String.eqb word "" then [] else [word]
  | String c r =>
      if is_space c then
        if String.eqb word "" then split r "" else word :: split r ""
      else split r (word +:+ String c "")
  end.

(** ["_".join(words)]. *)
Fixpoint join (words : list string) : string :=
  match words with
  | [] => ""
  | [word] => word
  | word :: rest => word +:+ "_" +:+ join rest
  end.

Definition keep (f : Ascii.ascii -> bool) (s : string) : string :=
  String.string_of_list_ascii (List.filter f (String.list_ascii_of_string s)).

Definition replace (old new : Ascii.ascii) (s : string) : string :=
  String.string_of_list_ascii
    (map (fun c => if Ascii.eqb c old then new else c)
       (String.list_ascii_of_string s)).

Fixpoint lstrip (chars : list Ascii.ascii) (l : list Ascii.ascii)
  : list Ascii.ascii :=
  match l with
  | c :: r => if existsb (Ascii.eqb c) chars then lstrip chars r else l
  | [] => []
  end.

(** [s.strip("._")]. *)
Definition strip (chars : list Ascii.ascii) (s : string) : string :=
  String.string_of_list_ascii
    (rev (lstrip chars (rev (lstrip chars (String.list_ascii_of_string s))))).

(** [secure_filename] on a POSIX host ([os.path.sep] is the slash, there is
    no [altsep] and the test for Windows device names does not apply). The
    function first normalises to NFKD and drops what is not ASCII: a name of
    ASCII characters passes through that step as it is, and other bytes are
    dropped here. *)
Definition secure_filename (filename : string) : string :=
  let filename :=
    keep (fun c => (nat_of_ascii c <? 128)%nat) filename in
  let filename := replace "/" " " filename in
  strip ["."; "_"]%char
    (keep is_filename_char (join (split filename ""))).

End Werkzeug.

(** ** Vocabulary of the statements *)

(** Every document is filed under its own [_id]. *)
Definition consistent (c : gmap string Entity) : Prop :=
  map_Forall (fun i e => _id e = Some i) c.

(** The annotation the detection loop builds for one rectangle. *)
Definition inferred_annotation (page_id : string) (rect : Rectangle) : Entity :=
  ImageAnnotation_from_details [ImageTarget_from_details page_id rect]
    (DataSource_from_details "system_inferred" "pyCV2").

(** The ids that occur in a tree. *)
Fixpoint tree_ids (t : TreeNode) : list string :=
  match t with
  | Node c ch =>
      match _id c with Some i => [i] | None => [] end
      ++ flat_map tree_ids ch
  end.

(** The loops over the children of a node, by name. *)
Definition upsert_each (f : TreeNode -> M TreeNode)
  : list TreeNode -> M (list TreeNode) :=
  fix go (l : list TreeNode) : M (list TreeNode) :=
    match l with
    | [] => ret []
    | n :: r => n' <- f n ;; r' <- go r ;; ret (n' :: r')
    end.

Definition delete_each (f : TreeNode -> M unit) : list TreeNode -> M unit :=
  fix go (l : list TreeNode) : M unit :=
    match l with
    | [] => ret tt
    | n :: r => f n ;;; go r
    end.

(** What a world looks like once the ids [ids] are deleted from [w]. *)
Definition deleted_from (ids : list string) (w w' : World) : Prop :=
  detect_calls w' = detect_calls w
  /\ forall k, colln w' !! k
               = if bool_decide (k ∈ ids) then None else colln w !! k.

(** What holds of any run that only upserts: no id leaves the collection,
    the detector is not called, and the ids of what is returned are stored. *)
Definition grows {A} (ids : A -> list string) (m : M A) : Prop :=
  forall w w' r,
    m w = (w', r) ->
    dom (colln w) ⊆ dom (colln w')
    /\ detect_calls w' = detect_calls w
    /\ forall a, r = inr a -> forall i, i ∈ ids a -> i ∈ dom (colln w').

(** The page entity the upload loop builds at index [page_index]. *)
Definition upload_page (page_index : Z) (book_id : string) : Entity :=
  BookPortion_from_details ("pg_" +:+ pretty page_index) "image" "page"
    [BookPositionTarget_from_details page_index book_id].

(** No stored document has a target that names a missing container. *)
Definition well_targeted (c : gmap string Entity) : Prop :=
  map_Forall (fun _ e => JsonObject.targets_resolvable c e = true) c.

(** ** A concrete setting for the examples *)

Module Examples.

(** A schema table that knows three classes; a sanitiser that keeps the name;
    a file system on which saving fails for the file named [corrupt.jpg]. *)
Definition externals : Externals :=
  {| schema_valid := fun e =>
       existsb (String.eqb (jsonClass e))
         ["BookPortion"; "ImageAnnotation"; "TextAnnotation"];
     secure_filename := fun s => s;
     save_page_files := fun _ f =>
       if String.eqb (filename f) "corrupt.jpg" then Some IOError else None;
     default_depth := 10 |}.

Definition page : Entity :=
  {| _id := Some "p1"; jsonClass := "BookPortion"; targets := [];
     source := None; title := Some "pg_0"; base_data := Some "image";
     portion_class := Some "page" |}.

(** An annotation a person drew on the page. *)
Definition user_annotation : Entity :=
  {| _id := Some "a1"; jsonClass := "ImageAnnotation";
     targets := [ImageTarget_from_details "p1"
                   (Rectangle_from_details 1 2 3 4)];
     source := Some (DataSource_from_details "user_supplied" "someone");
     title := None; base_data := None; portion_class := None |}.

(** An annotation the detector made. *)
Definition system_annotation : Entity :=
  {| _id := Some "a2"; jsonClass := "ImageAnnotation";
     targets := [ImageTarget_from_details "p1"
                   (Rectangle_from_details 5 6 7 8)];
     source := Some (DataSource_from_details "system_inferred" "pyCV2");
     title := None; base_data := None; portion_class := None |}.

Definition world_of (c : gmap string Entity) : World :=
  {| colln := c; detect_calls := 0 |}.

(** The page alone; the page with the person's annotation; the page with both
    annotations. *)
Definition bare_page : World := world_of {[ "p1" := page ]}.

Definition annotated_by_user : World :=
  world_of (<[ "a1" := user_annotation ]> {[ "p1" := page ]}).

Definition annotated_by_both : World :=
  world_of (<[ "a2" := system_annotation ]>
              (<[ "a1" := user_annotation ]> {[ "p1" := page ]})).

Definition region (l : list Q) : Region := {| coords := l; score := None |}.

(** The detector's answer in the scenario of the specification. *)
Definition scenario_image : DocImage :=
  {| text_regions :=
       [region [10#1; 10#1; 50#1; 60#1; 9#10];
        region [100#1; 100#1; 150#1; 140#1; 1#2]]%Q |}.

Definition one_region_image : DocImage :=
  {| text_regions := [region [0#1; 0#1; 8#1; 9#1]]%Q |}.

Definition new_book : Entity :=
  {| _id := None; jsonClass := "BookPortion"; targets := []; source := None;
     title := Some "A book"; base_data := Some "image";
     portion_class := Some "book" |}.

Definition editor : Session := {| permitted := true; user := Some "editor" |}.

Definition stranger : Session := {| permitted := false; user := None |}.

(** An annotation of a page that the store does not have. *)
Definition dangling_annotation : Entity :=
  ImageAnnotation_from_details
    [ImageTarget_from_details "nowhere" (Rectangle_from_details 0 0 1 1)]
    (DataSource_from_details "user_supplied" "someone").

(** A further annotation of the page [p1]. *)
Definition fresh_annotation : Entity :=
  ImageAnnotation_from_details
    [ImageTarget_from_details "p1" (Rectangle_from_details 0 0 1 1)]
    (DataSource_from_details "user_supplied" "someone").

(** An upload of a new book whose second file cannot be saved. *)
Definition upload_with_corrupt_file : BookList.Upload :=
  {| BookList.book_json := new_book;
     BookList.in_files := [ {| filename := "a.jpg" |};
                            {| filename := "corrupt.jpg" |} ] |}.

(** An upload that names a stored book and brings a TIFF file. *)
Definition upload_on_stored_book : BookList.Upload :=
  {| BookList.book_json := page;
     BookList.in_files := [ {| filename := "scan.tiff" |} ] |}.

(** The world once the new book is stored, and once the loop over the files
    of [upload_with_corrupt_file] has stopped. *)
Definition book_stored : World :=
  fst (JsonObject.update_collection (H := externals) new_book (Some "editor")
         bare_page).

Definition stored_book : Entity := set_id "0" new_book.

Definition pages_stored : World :=
  fst (BookList.save_pages (H := externals) editor stored_book (-1)
         (BookList.in_files upload_with_corrupt_file) book_stored).

(** The world once [fresh_annotation] is stored on the bare page. *)
Definition first_tree_stored : World :=
  world_of (<[ "0" := set_id "0" fresh_annotation ]> {[ "p1" := page ]}).

End Examples.

(** Further inputs for the properties beyond the claims. *)
Module Samples.

(** An annotation of the page [p1] that carries no source. *)
Definition sourceless_annotation : Entity :=
  {| _id := Some "a3"; jsonClass := "ImageAnnotation";
     targets := [ImageTarget_from_details "p1"
                   (Rectangle_from_details 9 9 9 9)];
     source := None; title := None; base_data := None;
     portion_class := None |}.

Definition annotated_without_source : World :=
  Examples.world_of
    (<[ "a3" := sourceless_annotation ]> {[ "p1" := Examples.page ]}).

(** A detector answer whose second region has three coordinates only. *)
Definition short_region_image : DocImage :=
  {| text_regions :=
       [Examples.region [1#1; 2#1; 3#1; 4#1];
        Examples.region [1#1; 2#1; 3#1];
        Examples.region [5#1; 6#1; 7#1; 8#1]]%Q |}.

(** A page on which the detector finds nothing. *)
Definition blank_image : DocImage := {| text_regions := [] |}.

(** A book portion that is not an image book, and one without [base_data]. *)
Definition text_book : Entity :=
  {| _id := None; jsonClass := "BookPortion"; targets := []; source := None;
     title := Some "A text"; base_data := Some "text";
     portion_class := Some "book" |}.

Definition bare_book : Entity :=
  {| _id := None; jsonClass := "BookPortion"; targets := []; source := None;
     title := Some "No data"; base_data := None;
     portion_class := Some "book" |}.

(** The setting of the examples with [werkzeug]'s sanitiser in the place of
    the one that keeps the name. *)
Definition with_werkzeug : Externals :=
  {| schema_valid := @schema_valid Examples.externals;
     secure_filename := Werkzeug.secure_filename;
     save_page_files := @save_page_files Examples.externals;
     default_depth := @default_depth Examples.externals |}.

Definition upload_of (book : Entity) (names : list string) : BookList.Upload :=
  {| BookList.book_json := book;
     BookList.in_files := map (fun n => {| filename := n |}) names |}.

End Samples.

(** ** The store: basic facts *)

(** Induction on trees with the hypothesis for every child. *)
Lemma TreeNode_forall_ind (P : TreeNode -> Prop) :
  (forall c ch, Forall P ch -> P (Node c ch)) -> forall t, P t.
Proof.
  intros step.
  fix IH 1.
  intros [c ch]. apply step.
  induction ch as [|n r IHr]; constructor; [apply IH | exact IHr].
Qed.

Lemma colln_set_colln c w : colln (set_colln c w) = c.
Proof. done. Qed.

Lemma fresh_id_unused (c : gmap string Entity) : c !! fresh (dom c) = None.
Proof. apply not_elem_of_dom, is_fresh. Qed.

Lemma targets_resolvable_false c e :
  (exists t, t ∈ targets e /\ c !! container_id t = None) ->
  JsonObject.targets_resolvable c e = false.
Proof.
  intros (t & Hin & Hnone). unfold JsonObject.targets_resolvable.
  apply not_true_is_false. intros Hall.
  rewrite forallb_forall in Hall.
  specialize (Hall t (proj1 (list_elem_of_In _ _) Hin)).
  apply bool_decide_eq_true in Hall. rewrite Hnone in Hall.
  by destruct Hall.
Qed.

Section StoreFacts.
Context `{Externals}.

(** The three ways an upsert can go. *)
Lemma upsert_outcome e u w :
  (JsonObject.targets_resolvable (colln w) e = false
   /\ JsonObject.update_collection e u w = (w, inl TargetValidationError))
  \/ (JsonObject.targets_resolvable (colln w) e = true
      /\ schema_valid e = false
      /\ JsonObject.update_collection e u w = (w, inl ValidationError))
  \/ (JsonObject.targets_resolvable (colln w) e = true
      /\ schema_valid e = true
      /\ JsonObject.update_collection e u w =
           (let i := default (fresh (dom (colln w))) (_id e) in
            (set_colln (<[i := set_id i e]> (colln w)) w, inr (set_id i e)))).
Proof.
  unfold JsonObject.update_collection.
  destruct (JsonObject.targets_resolvable (colln w) e); simpl; [|by left].
  destruct (schema_valid e); simpl; right; [right | left]; done.
Qed.

(** An upsert removes no id and does not call the detector; when it raises
    it has written nothing. *)
Lemma upsert_grows e u w w' r :
  JsonObject.update_collection e u w = (w', r) ->
  dom (colln w) ⊆ dom (colln w')
  /\ detect_calls w' = detect_calls w
  /\ (forall x, r = inl x -> w' = w)
  /\ (forall e', r = inr e' ->
        exists i, _id e' = Some i /\ colln w' !! i = Some e').
Proof.
  intros Hrun.
  destruct (upsert_outcome e u w) as [[_ Hr]|[(_ & _ & Hr)|(_ & _ & Hr)]];
    rewrite Hr in Hrun; simpl in Hrun; inversion Hrun; subst; clear Hrun.
  - repeat split; try done; intros ? [=].
  - repeat split; try done; intros ? [=].
  - repeat split.
    + rewrite colln_set_colln, dom_insert. set_solver.
    + intros x [=].
    + intros e' [= <-]. eexists. split; [done|].
      rewrite colln_set_colln. apply lookup_insert_eq.
Qed.

(** An upsert of an object that has no id yet leaves every stored document
    as it is. *)
Lemma upsert_new_frame e u w w' r :
  _id e = None ->
  JsonObject.update_collection e u w = (w', r) ->
  colln w ⊆ colln w'.
Proof.
  intros Hid Hrun.
  destruct (upsert_outcome e u w) as [[_ Hr]|[(_ & _ & Hr)|(_ & _ & Hr)]];
    rewrite Hr in Hrun; simpl in Hrun; inversion Hrun; subst; clear Hrun;
    try done.
  rewrite Hid. simpl. apply insert_subseteq, fresh_id_unused.
Qed.

Lemma upsert_consistent e u w w' r :
  consistent (colln w) ->
  JsonObject.update_collection e u w = (w', r) ->
  consistent (colln w').
Proof.
  intros Hc Hrun.
  destruct (upsert_outcome e u w) as [[_ Hr]|[(_ & _ & Hr)|(_ & _ & Hr)]];
    rewrite Hr in Hrun; simpl in Hrun; inversion Hrun; subst; clear Hrun;
    try done.
  intros i d. rewrite colln_set_colln. rewrite lookup_insert.
  case_decide; [intros [= <-]; by subst | apply Hc].
Qed.

End StoreFacts.

(** ** The detection loop *)

Lemma region_to_rectangle_total r :
  (4 <= length (coords r))%nat ->
  exists rect,
    AllPageAnnotationsHandler.region_to_rectangle
      (AllPageAnnotationsHandler.del_score r) = inr rect.
Proof.
  unfold AllPageAnnotationsHandler.region_to_rectangle. simpl.
  destruct (coords r) as [|q0 [|q1 [|q2 [|q3 l]]]]; simpl; try lia.
  intros _. eexists. reflexivity.
Qed.

Section DetectionLoop.
Context `{Externals}.

(** One turn of the loop when the page is stored and the schema accepts the
    annotation: the annotation is filed under an id no document has. *)
Lemma annotate_regions_step page page_id r rect rest acc w :
  _id page = Some page_id ->
  is_Some (colln w !! page_id) ->
  AllPageAnnotationsHandler.region_to_rectangle
    (AllPageAnnotationsHandler.del_score r) = inr rect ->
  schema_valid (inferred_annotation page_id rect) = true ->
  AllPageAnnotationsHandler.annotate_regions page (r :: rest) acc w =
    (let i := fresh (dom (colln w)) in
     let a := set_id i (inferred_annotation page_id rect) in
     AllPageAnnotationsHandler.annotate_regions page rest (acc ++ [a])
       (set_colln (<[i := a]> (colln w)) w)).
Proof.
  intros Hid Hpage Hrect Hschema. simpl.
  unfold bind at 1. unfold lift at 1. rewrite Hid. simpl.
  unfold bind at 1. unfold lift at 1. rewrite Hrect.
  unfold bind at 1.
  fold (inferred_annotation page_id rect).
  destruct (upsert_outcome (inferred_annotation page_id rect) None w)
    as [[Hres _]|[(_ & Hs & _)|(_ & _ & Hr)]].
  - exfalso. revert Hres. unfold JsonObject.targets_resolvable. simpl.
    rewrite bool_decide_eq_true_2; done.
  - congruence.
  - rewrite Hr. reflexivity.
Qed.

(** Whatever the loop does, it changes no stored document and does not call
    the detector. *)
Lemma annotate_regions_frame page regions acc w w' r :
  AllPageAnnotationsHandler.annotate_regions page regions acc w = (w', r) ->
  colln w ⊆ colln w' /\ detect_calls w' = detect_calls w.
Proof.
  revert acc w. induction regions as [|reg rest IH]; intros acc w Hrun.
  - inversion Hrun; subst. done.
  - simpl in Hrun. unfold bind at 1, lift at 1 in Hrun.
    destruct (getattr (_id page)) as [x|page_id]; simpl in Hrun;
      [by inversion Hrun; subst|].
    unfold bind at 1, lift at 1 in Hrun.
    destruct (AllPageAnnotationsHandler.region_to_rectangle _) as [x|rect];
      [by inversion Hrun; subst|].
    unfold bind at 1 in Hrun.
    destruct (JsonObject.update_collection _ None w) as [w1 r1] eqn:Hup.
    assert (Hsub : colln w ⊆ colln w1)
      by (eapply upsert_new_frame; [|exact Hup]; reflexivity).
    destruct (upsert_grows _ _ _ _ _ Hup) as (_ & Hcalls & _).
    destruct r1 as [x|a].
    + inversion Hrun; subst. done.
    + apply IH in Hrun as [Hsub' Hcalls']. split.
      * by etrans.
      * congruence.
Qed.

(** On a stored page, with regions of four coordinates or more and a schema
    that accepts the annotations, the loop succeeds: it appends one new
    annotation for each region, each under an id the store did not have. *)
Lemma annotate_regions_succeeds page page_id regions acc w :
  _id page = Some page_id ->
  is_Some (colln w !! page_id) ->
  Forall (fun r => (4 <= length (coords r))%nat) regions ->
  (forall rect, schema_valid (inferred_annotation page_id rect) = true) ->
  exists w' new,
    AllPageAnnotationsHandler.annotate_regions page regions acc w
      = (w', inr (acc ++ new))
    /\ Forall2 (fun reg a =>
                  exists i rect,
                    AllPageAnnotationsHandler.region_to_rectangle
                      (AllPageAnnotationsHandler.del_score reg) = inr rect
                    /\ a = set_id i (inferred_annotation page_id rect)
                    /\ colln w !! i = None
                    /\ colln w' !! i = Some a) regions new
    /\ size (colln w') = (size (colln w) + length regions)%nat.
Proof.
  intros Hid Hpage Hregs Hschema. revert acc w Hpage.
  induction Hregs as [|reg rest Hreg Hrest IH]; intros acc w Hpage.
  - exists w, []. simpl. rewrite app_nil_r. repeat split; [constructor|lia].
  - destruct (region_to_rectangle_total reg Hreg) as [rect Hrect].
    rewrite (annotate_regions_step page page_id reg rect rest acc w
               Hid Hpage Hrect (Hschema rect)). simpl.
    set (i := fresh (dom (colln w))).
    set (a := set_id i (inferred_annotation page_id rect)).
    assert (Hfresh : colln w !! i = None) by apply fresh_id_unused.
    destruct (IH (acc ++ [a]) (set_colln (<[i := a]> (colln w)) w))
      as (w' & new & Hrun & Hall & Hsize).
    { rewrite colln_set_colln, lookup_insert. case_decide; [by eexists|done]. }
    exists w', (a :: new). rewrite Hrun, <- app_assoc. simpl.
    destruct (annotate_regions_frame _ _ _ _ _ _ Hrun) as [Hsub _].
    rewrite colln_set_colln in Hsub.
    repeat split.
    + constructor.
      * exists i, rect. repeat split; try done.
        eapply lookup_weaken; [|exact Hsub]. apply lookup_insert_eq.
      * eapply Forall2_impl; [exact Hall|].
        intros reg' a' (i' & rect' & Hr' & Ha' & Hnone & Hsome).
        exists i', rect'. repeat split; try done.
        rewrite colln_set_colln in Hnone.
        apply lookup_insert_None in Hnone. tauto.
    + rewrite Hsize, colln_set_colln, map_size_insert_None by done. lia.
Qed.

(** Detection calls the detector once and then runs the loop. *)
Lemma detect_and_annotate_unfold page page_image w :
  AllPageAnnotationsHandler.detect_and_annotate page page_image w =
    AllPageAnnotationsHandler.annotate_regions page (text_regions page_image) []
      {| colln := colln w; detect_calls := S (detect_calls w) |}.
Proof. reflexivity. Qed.

Lemma detect_and_annotate_frame page page_image w w' r :
  AllPageAnnotationsHandler.detect_and_annotate page page_image w = (w', r) ->
  colln w ⊆ colln w' /\ detect_calls w' = S (detect_calls w).
Proof.
  rewrite detect_and_annotate_unfold. intros Hrun.
  by apply annotate_regions_frame in Hrun.
Qed.

End DetectionLoop.

Lemma targetting_entities_elem c e ty a :
  a ∈ JsonObject.get_targetting_entities c e ty <->
  exists cid, _id e = Some cid
    /\ (exists k, c !! k = Some a)
    /\ JsonObject.names_container cid a && JsonObject.has_type ty a = true.
Proof.
  unfold JsonObject.get_targetting_entities.
  destruct (_id e) as [cid|].
  - rewrite list_elem_of_In, filter_In, in_map_iff. split.
    + intros [([k a'] & Heq & Hin) Hf]. simpl in Heq. subst a'.
      exists cid. split; [done|]. split; [|done].
      exists k. by apply elem_of_map_to_list, list_elem_of_In.
    + intros (cid' & [= <-] & [k Hk] & Hf). split; [|done].
      exists (k, a). split; [done|].
      by apply list_elem_of_In, elem_of_map_to_list.
  - split; [by intros ?%elem_of_nil | by intros (? & ? & _)].
Qed.

Lemma targetting_entities_stored c e ty a :
  a ∈ JsonObject.get_targetting_entities c e ty ->
  exists i, c !! i = Some a.
Proof.
  unfold JsonObject.get_targetting_entities.
  destruct (_id e) as [cid|]; [|by intros ?%elem_of_nil].
  intros Hin%list_elem_of_In. apply filter_In in Hin as [Hin _].
  apply in_map_iff in Hin as ([i a'] & Heq & Hin). simpl in Heq. subst a'.
  exists i. by apply elem_of_map_to_list, list_elem_of_In.
Qed.

(** ** The annotations of a page *)

Section PageAnnotations.
Context `{Externals}.

(** Without the force flag, existing annotations are returned as they are. *)
Lemma update_image_annotations_known page page_image w :
  JsonObject.get_targetting_entities (colln w) page
    (Some ImageAnnotation_wire_typeid) <> [] ->
  AllPageAnnotationsHandler.update_image_annotations page page_image false w =
    (w, inr (JsonObject.get_targetting_entities (colln w) page
               (Some ImageAnnotation_wire_typeid))).
Proof.
  intros Hknown. unfold AllPageAnnotationsHandler.update_image_annotations.
  destruct (JsonObject.get_targetting_entities _ _ _); done.
Qed.

(** Without known annotations the flag is not looked at. *)
Lemma update_image_annotations_none page page_image force w :
  JsonObject.get_targetting_entities (colln w) page
    (Some ImageAnnotation_wire_typeid) = [] ->
  AllPageAnnotationsHandler.update_image_annotations page page_image force w =
    AllPageAnnotationsHandler.detect_and_annotate page page_image w.
Proof.
  intros Hknown. unfold AllPageAnnotationsHandler.update_image_annotations.
  by rewrite Hknown.
Qed.

(** With the flag, the outcome of the filter decides. *)
Lemma update_image_annotations_forced page page_image w si :
  JsonObject.get_targetting_entities (colln w) page
    (Some ImageAnnotation_wire_typeid) <> [] ->
  AllPageAnnotationsHandler.filter_system_inferred
    (JsonObject.get_targetting_entities (colln w) page
       (Some ImageAnnotation_wire_typeid)) = inr si ->
  AllPageAnnotationsHandler.update_image_annotations page page_image true w =
    match si with
    | [] => AllPageAnnotationsHandler.detect_and_annotate page page_image w
    | _ :: _ =>
        (w, inr (JsonObject.get_targetting_entities (colln w) page
                   (Some ImageAnnotation_wire_typeid)))
    end.
Proof.
  intros Hknown Hsi. unfold AllPageAnnotationsHandler.update_image_annotations.
  destruct (JsonObject.get_targetting_entities _ _ _) as [|a known] eqn:Hk;
    [done|].
  rewrite Hsi. by destruct si.
Qed.

(** C1: on a page that has an [ImageAnnotation] targeting it, the handler
    called without the force flag returns the known annotations, and called
    again (on the world the first call left, with any image) it returns the
    same sequence, the same by id; neither call invokes the region detector
    or touches the collection. *)
Theorem repeated_call_returns_same_annotations page page_image page_image' w :
  JsonObject.get_targetting_entities (colln w) page
    (Some ImageAnnotation_wire_typeid) <> [] ->
  exists w1 first w2 second,
    AllPageAnnotationsHandler.update_image_annotations page page_image false w
      = (w1, inr first)
    /\ AllPageAnnotationsHandler.update_image_annotations page page_image'
         false w1 = (w2, inr second)
    /\ second = first
    /\ map _id second = map _id first
    /\ detect_calls w1 = detect_calls w
    /\ detect_calls w2 = detect_calls w1
    /\ colln w2 = colln w.
Proof.
  intros Hknown.
  exists w, (JsonObject.get_targetting_entities (colln w) page
               (Some ImageAnnotation_wire_typeid)),
         w, (JsonObject.get_targetting_entities (colln w) page
               (Some ImageAnnotation_wire_typeid)).
  rewrite !update_image_annotations_known by done. done.
Qed.

(** C2, as amended: on a page with known annotations and the force flag set,
    the handler returns the known annotations untouched, without detection
    and without creating anything, when one of them is system-inferred; when
    none is, it does not short-circuit: it invokes the detector once and
    answers with what the detection loop creates, leaving the stored
    documents as they were. *)
Theorem force_flag_redetects_unless_system_inferred page page_image w si :
  JsonObject.get_targetting_entities (colln w) page
    (Some ImageAnnotation_wire_typeid) <> [] ->
  AllPageAnnotationsHandler.filter_system_inferred
    (JsonObject.get_targetting_entities (colln w) page
       (Some ImageAnnotation_wire_typeid)) = inr si ->
  (si <> [] ->
     AllPageAnnotationsHandler.update_image_annotations page page_image true w
       = (w, inr (JsonObject.get_targetting_entities (colln w) page
                    (Some ImageAnnotation_wire_typeid))))
  /\ (si = [] ->
        exists w' r,
          AllPageAnnotationsHandler.update_image_annotations page page_image
            true w = (w', r)
          /\ AllPageAnnotationsHandler.annotate_regions page
               (text_regions page_image) []
               {| colln := colln w; detect_calls := S (detect_calls w) |}
             = (w', r)
          /\ detect_calls w' = S (detect_calls w)
          /\ colln w ⊆ colln w').
Proof.
  intros Hknown Hsi.
  rewrite (update_image_annotations_forced page page_image w si Hknown Hsi).
  split.
  - by destruct si.
  - intros ->.
    destruct (AllPageAnnotationsHandler.detect_and_annotate page page_image w)
      as [w' r] eqn:Hrun.
    exists w', r. split; [done|].
    rewrite <- detect_and_annotate_unfold. split; [done|].
    apply detect_and_annotate_frame in Hrun. tauto.
Qed.

(** C3: on a stored page without annotations, when the detector returns
    [[10,10,50,60,0.9]] and [[100,100,150,140,0.5]], the handler invokes it
    once and creates exactly two annotations, returned in detection order,
    each with the single target on the page, rectangles
    [{x:10,y:10,w:40,h:50}] and [{x:100,y:100,w:50,h:40}], and source type
    [system_inferred]; the schema table is assumed to accept them. *)
Theorem detection_scenario_creates_two_annotations page page_id page_image
    force w s1 s2 :
  _id page = Some page_id ->
  is_Some (colln w !! page_id) ->
  JsonObject.get_targetting_entities (colln w) page
    (Some ImageAnnotation_wire_typeid) = [] ->
  text_regions page_image =
    [ {| coords := [10#1; 10#1; 50#1; 60#1; 9#10]%Q; score := s1 |};
      {| coords := [100#1; 100#1; 150#1; 140#1; 1#2]%Q; score := s2 |} ] ->
  (forall rect, schema_valid (inferred_annotation page_id rect) = true) ->
  exists w' i1 i2,
    let a1 :=
      {| _id := Some i1; jsonClass := "ImageAnnotation";
         targets := [ {| container_id := page_id;
                         rectangle := Some {| rect_x := 10; rect_y := 10;
                                              rect_w := 40; rect_h := 50 |};
                         position := None |} ];
         source := Some {| source_type := "system_inferred";
                           source_id := "pyCV2" |};
         title := None; base_data := None; portion_class := None |} in
    let a2 :=
      {| _id := Some i2; jsonClass := "ImageAnnotation";
         targets := [ {| container_id := page_id;
                         rectangle := Some {| rect_x := 100; rect_y := 100;
                                              rect_w := 50; rect_h := 40 |};
                         position := None |} ];
         source := Some {| source_type := "system_inferred";
                           source_id := "pyCV2" |};
         title := None; base_data := None; portion_class := None |} in
    AllPageAnnotationsHandler.update_image_annotations page page_image force w
      = (w', inr [a1; a2])
    /\ colln w !! i1 = None
    /\ colln w !! i2 = None
    /\ i1 <> i2
    /\ colln w' = <[i2 := a2]> (<[i1 := a1]> (colln w))
    /\ detect_calls w' = S (detect_calls w).
Proof.
  intros Hid Hpage Hnone Hregions Hschema.
  rewrite update_image_annotations_none, detect_and_annotate_unfold by done.
  rewrite Hregions.
  set (w0 := {| colln := colln w; detect_calls := S (detect_calls w) |}).
  set (i1 := fresh (dom (colln w0))).
  set (r1 := Rectangle_from_details 10 10 40 50).
  set (r2 := Rectangle_from_details 100 100 50 40).
  set (a1 := set_id i1 (inferred_annotation page_id r1)).
  set (w1 := set_colln (<[i1 := a1]> (colln w0)) w0).
  set (i2 := fresh (dom (colln w1))).
  set (a2 := set_id i2 (inferred_annotation page_id r2)).
  assert (H1 : colln w !! i1 = None) by apply fresh_id_unused.
  assert (H2 : colln w1 !! i2 = None) by apply fresh_id_unused.
  assert (Hpage1 : is_Some (colln w1 !! page_id)).
  { unfold w1. rewrite colln_set_colln, lookup_insert.
    case_decide; [by eexists | done]. }
  unfold w1 in H2. rewrite colln_set_colln in H2.
  apply lookup_insert_None in H2 as [H2 Hne].
  exists (set_colln (<[i2 := a2]> (colln w1)) w1), i1, i2. cbv zeta.
  match goal with
  | |- context [AllPageAnnotationsHandler.annotate_regions _ (?r :: _)] =>
      rewrite (annotate_regions_step page page_id r r1 _ [] w0 Hid Hpage
                 eq_refl (Hschema r1))
  end.
  cbv zeta. rewrite app_nil_l. fold i1. fold a1. fold w1.
  match goal with
  | |- context [AllPageAnnotationsHandler.annotate_regions _ (?r :: _)] =>
      rewrite (annotate_regions_step page page_id r r2 _ [a1] w1 Hid Hpage1
                 eq_refl (Hschema r2))
  end.
  cbv zeta. fold i2. fold a2. simpl app.
  repeat split; done.
Qed.

(** C9: when the handler runs detection on a stored page that already had
    annotations (force flag set, none of them system-inferred), every stored
    document, the known annotations among them, is in the collection
    afterwards as it was, and the answer holds only annotations created by
    this call: one per region, system-inferred, under ids the store did not
    have, so that no known annotation is in it. *)
Theorem forced_detection_keeps_known_annotations page page_id page_image w :
  consistent (colln w) ->
  _id page = Some page_id ->
  is_Some (colln w !! page_id) ->
  JsonObject.get_targetting_entities (colln w) page
    (Some ImageAnnotation_wire_typeid) <> [] ->
  AllPageAnnotationsHandler.filter_system_inferred
    (JsonObject.get_targetting_entities (colln w) page
       (Some ImageAnnotation_wire_typeid)) = inr [] ->
  Forall (fun r => (4 <= length (coords r))%nat) (text_regions page_image) ->
  (forall rect, schema_valid (inferred_annotation page_id rect) = true) ->
  exists w' new,
    AllPageAnnotationsHandler.update_image_annotations page page_image true w
      = (w', inr new)
    /\ detect_calls w' = S (detect_calls w)
    /\ colln w ⊆ colln w'
    /\ (forall a,
          a ∈ JsonObject.get_targetting_entities (colln w) page
                (Some ImageAnnotation_wire_typeid) ->
          (a ∉ new)
          /\ exists i, colln w !! i = Some a /\ colln w' !! i = Some a)
    /\ length new = length (text_regions page_image)
    /\ Forall (fun a =>
                 exists i, _id a = Some i
                   /\ colln w !! i = None
                   /\ colln w' !! i = Some a
                   /\ (source_type <$> source a) = Some "system_inferred") new.
Proof.
  intros Hcons Hid Hpage Hknown Hsi Hregs Hschema.
  rewrite (update_image_annotations_forced page page_image w [] Hknown Hsi).
  rewrite detect_and_annotate_unfold.
  set (w0 := {| colln := colln w; detect_calls := S (detect_calls w) |}).
  destruct (annotate_regions_succeeds page page_id (text_regions page_image)
              [] w0 Hid Hpage Hregs Hschema) as (w' & new & Hrun & Hall & _).
  simpl in Hrun. exists w', new. split; [done|].
  destruct (annotate_regions_frame _ _ _ _ _ _ Hrun) as [Hsub Hcalls].
  assert (Hnew : Forall (fun a =>
                 exists i, _id a = Some i
                   /\ colln w !! i = None
                   /\ colln w' !! i = Some a
                   /\ (source_type <$> source a) = Some "system_inferred") new).
  { clear -Hall. induction Hall as [|reg a regs new Hone _ IH]; constructor;
      [|exact IH].
    destruct Hone as (i & rect & _ & -> & Hn & Hs). exists i. done. }
  split; [done|]. split; [done|]. split; [|split; [|done]].
  - intros a [i Hi]%targetting_entities_stored. split.
    + intros Hin. rewrite Forall_forall in Hnew.
      destruct (Hnew a Hin) as (j & Hj & Hn & _).
      apply Hcons in Hi as Hidi. congruence.
    + exists i. split; [done|]. by eapply lookup_weaken.
  - symmetry. by eapply Forall2_length.
Qed.

End PageAnnotations.

(** ** Trees of entities *)

Lemma world_eq w w' :
  colln w = colln w' -> detect_calls w = detect_calls w' -> w = w'.
Proof. destruct w, w'. simpl. by intros -> ->. Qed.

Lemma tree_delete_unfold c ch u :
  JsonObjectNode.delete_tree (Node c ch) u =
    (delete_each (fun n => JsonObjectNode.delete_tree n u) ch ;;;
     JsonObject.delete_in_collection c u).
Proof. reflexivity. Qed.

Lemma deleted_from_nil w : deleted_from [] w w.
Proof.
  split; [done|]. intros k.
  by rewrite bool_decide_eq_false_2 by apply not_elem_of_nil.
Qed.

Lemma deleted_from_app ids1 ids2 w w1 w2 :
  deleted_from ids1 w w1 -> deleted_from ids2 w1 w2 ->
  deleted_from (ids1 ++ ids2) w w2.
Proof.
  intros [Hc1 Hl1] [Hc2 Hl2]. split; [congruence|].
  intros k. rewrite Hl2, Hl1.
  rewrite (bool_decide_ext (k ∈ ids1 ++ ids2) (k ∈ ids1 \/ k ∈ ids2))
    by apply elem_of_app.
  rewrite bool_decide_or.
  by destruct (bool_decide (k ∈ ids1)), (bool_decide (k ∈ ids2)).
Qed.

Lemma deleted_from_perm ids ids' w w' :
  (forall k, k ∈ ids <-> k ∈ ids') ->
  deleted_from ids w w' -> deleted_from ids' w w'.
Proof.
  intros Hsame [Hc Hl]. split; [done|]. intros k. rewrite Hl.
  by rewrite (bool_decide_ext _ _ (Hsame k)).
Qed.

Lemma deleted_from_subseteq ids w w' :
  deleted_from ids w w' -> colln w' ⊆ colln w.
Proof.
  intros [_ Hl]. apply map_subseteq_spec. intros k v. rewrite Hl.
  by case_bool_decide.
Qed.

Lemma entity_delete_spec e u w :
  exists w',
    JsonObject.delete_in_collection e u w = (w', inr tt)
    /\ deleted_from (match _id e with Some i => [i] | None => [] end) w w'.
Proof.
  unfold JsonObject.delete_in_collection. destruct (_id e) as [i|].
  - eexists. split; [done|]. split; [done|]. intros k.
    rewrite colln_set_colln, lookup_delete.
    rewrite (bool_decide_ext (k ∈ [i]) (k = i))
      by apply list_elem_of_singleton.
    case_decide; subst; case_bool_decide; congruence.
  - exists w. split; [done|]. apply deleted_from_nil.
Qed.

(** Removing the entities of a tree never raises; it removes the ids of the
    tree and nothing else. *)
Lemma tree_delete_spec node u w :
  exists w',
    JsonObjectNode.delete_tree node u w = (w', inr tt)
    /\ deleted_from (tree_ids node) w w'.
Proof.
  revert w. induction node as [c ch IH] using TreeNode_forall_ind. intros w.
  rewrite tree_delete_unfold.
  assert (Hch : forall w0, exists w1,
             delete_each (fun n => JsonObjectNode.delete_tree n u) ch w0
               = (w1, inr tt)
             /\ deleted_from (flat_map tree_ids ch) w0 w1).
  { induction IH as [|n r Hn _ IHr]; intros w0.
    - exists w0. split; [done|]. apply deleted_from_nil.
    - destruct (Hn w0) as (w1 & Hrun1 & Hdel1).
      destruct (IHr w1) as (w2 & Hrun2 & Hdel2).
      exists w2. split.
      + simpl. unfold bind at 1. rewrite Hrun1. exact Hrun2.
      + simpl. by eapply deleted_from_app. }
  destruct (Hch w) as (w1 & Hrun1 & Hdel1).
  destruct (entity_delete_spec c u w1) as (w2 & Hrun2 & Hdel2).
  exists w2. split.
  - unfold bind at 1. rewrite Hrun1. exact Hrun2.
  - simpl. eapply deleted_from_perm;
      [|eapply deleted_from_app; [exact Hdel1 | exact Hdel2]].
    intros k. rewrite !elem_of_app. tauto.
Qed.

Lemma root_id_in_tree_ids node i :
  _id (content node) = Some i -> i ∈ tree_ids node.
Proof.
  destruct node as [c ch]. simpl. intros ->. apply elem_of_app. left.
  apply list_elem_of_here.
Qed.

Lemma build_tree_content c ty depth e :
  content (JsonObjectNode.build_tree c ty depth e) = e.
Proof. by destruct depth. Qed.

Section DeletingTrees.
Context `{Externals}.

(** The tree the deletion of a stored node removes. *)
Lemma node_delete_stored node i u w :
  _id (content node) = Some i ->
  is_Some (colln w !! i) ->
  JsonObjectNode.delete_in_collection node u w =
    JsonObjectNode.delete_tree
      (JsonObjectNode.fill_descendents (colln w) node default_depth None) u w.
Proof.
  intros Hid Hstored. unfold JsonObjectNode.delete_in_collection.
  by rewrite Hid, bool_decide_eq_true_2.
Qed.

(** Deleting a node never raises and only removes: afterwards the id of the
    node is not in the collection, and when it was not there before, nothing
    has changed. *)
Lemma node_delete_spec node u w :
  exists w',
    JsonObjectNode.delete_in_collection node u w = (w', inr tt)
    /\ detect_calls w' = detect_calls w
    /\ colln w' ⊆ colln w
    /\ (forall i, _id (content node) = Some i -> colln w' !! i = None)
    /\ ((forall i, _id (content node) = Some i -> colln w !! i = None) ->
        w' = w).
Proof.
  unfold JsonObjectNode.delete_in_collection.
  destruct (_id (content node)) as [i|] eqn:Hid;
    [|exists w; repeat split; done].
  case_bool_decide as Hstored.
  - destruct (tree_delete_spec
                (JsonObjectNode.fill_descendents (colln w) node default_depth
                   None) u w) as (w' & Hrun & Hdel).
    exists w'. split; [done|]. split; [apply Hdel|].
    split; [by eapply deleted_from_subseteq|]. split.
    + intros ? [= <-]. destruct Hdel as [_ Hl]. rewrite Hl.
      rewrite bool_decide_eq_true_2; [done|].
      apply root_id_in_tree_ids.
      unfold JsonObjectNode.fill_descendents.
      by rewrite build_tree_content.
    + intros Habs. rewrite (Habs i eq_refl) in Hstored.
      by destruct Hstored as [? ?].
  - exists w. split; [done|]. split; [done|]. split; [done|].
    split; [|done]. intros ? [= <-]. by apply eq_None_not_Some.
Qed.

Lemma delete_nodes_spec session nodes w :
  exists w',
    EntityListHandler.delete_nodes session nodes w = (w', inr tt)
    /\ detect_calls w' = detect_calls w
    /\ colln w' ⊆ colln w
    /\ (forall node i, node ∈ nodes -> _id (content node) = Some i ->
          colln w' !! i = None)
    /\ ((forall node i, node ∈ nodes -> _id (content node) = Some i ->
           colln w !! i = None) -> w' = w).
Proof.
  revert w. induction nodes as [|n r IH]; intros w.
  - exists w. split; [done|]. split; [done|]. split; [done|].
    split; [|done]. by intros node i ?%elem_of_nil.
  - destruct (node_delete_spec n (user session) w)
      as (w1 & Hrun1 & Hc1 & Hsub1 & Hgone1 & Hsame1).
    destruct (IH w1) as (w2 & Hrun2 & Hc2 & Hsub2 & Hgone2 & Hsame2).
    exists w2. split; [|split; [congruence|split; [by etrans|split]]].
    + simpl. unfold bind at 1. rewrite Hrun1. exact Hrun2.
    + intros node i [->|Hin]%elem_of_cons Hid.
      * eapply lookup_weaken_None; [|exact Hsub2]. by apply Hgone1.
      * by eapply Hgone2.
    + intros Habs.
      assert (w1 = w) as ->.
      { apply Hsame1. intros i Hid. apply (Habs n i); [|done].
        apply list_elem_of_here. }
      apply Hsame2. intros node i Hin Hid. apply (Habs node i); [|done].
      by apply list_elem_of_further.
Qed.

(** C5: a permitted [DELETE /entities] never raises and answers with success
    ([{}], 200) whatever ids the trees carry; sent again on the world it
    left, it changes nothing more (deleting twice is deleting once); and
    when the store has none of the ids of the trees, the first call already
    leaves the world as it was. *)
Theorem delete_is_total_and_idempotent session nodes w :
  permitted session = true ->
  exists w1,
    EntityListHandler.delete session nodes w
      = (w1, inr {| body := EmptyDict; code := 200 |})
    /\ EntityListHandler.delete session nodes w1
      = (w1, inr {| body := EmptyDict; code := 200 |})
    /\ ((forall i, i ∈ flat_map tree_ids nodes -> colln w !! i = None) ->
        w1 = w).
Proof.
  intros Hperm. unfold EntityListHandler.delete. rewrite Hperm. simpl.
  destruct (delete_nodes_spec session nodes w)
    as (w1 & Hrun1 & _ & _ & Hgone1 & Hsame1).
  destruct (delete_nodes_spec session nodes w1)
    as (w2 & Hrun2 & _ & _ & _ & Hsame2).
  assert (w2 = w1) as -> by (apply Hsame2; exact Hgone1).
  exists w1. unfold bind. rewrite Hrun1, Hrun2. repeat split.
  intros Habs. apply Hsame1. intros node i Hin Hid. apply Habs.
  apply list_elem_of_In, in_flat_map. exists node.
  split; [by apply list_elem_of_In|].
  by apply list_elem_of_In, root_id_in_tree_ids.
Qed.

End DeletingTrees.

(** ** Posting trees *)

Section PostingTrees.
Context `{Externals}.

Lemma node_upsert_unfold c ch u :
  JsonObjectNode.update_collection (Node c ch) u =
    (c' <- JsonObject.update_collection c u ;;
     ch' <- upsert_each (fun n => JsonObjectNode.update_collection n u) ch ;;
     ret (Node c' ch')).
Proof. reflexivity. Qed.

Lemma grows_ret {A} (ids : A -> list string) (a : A) :
  (forall i, i ∉ ids a) -> grows ids (ret a).
Proof.
  intros Hnone w w' r [= <- <-]. repeat split; try done.
  intros a' [= <-] i Hi. by apply Hnone in Hi.
Qed.

(** A tree upsert grows the collection. *)
Lemma node_upsert_grows node u :
  grows tree_ids (JsonObjectNode.update_collection node u).
Proof.
  induction node as [c ch IH] using TreeNode_forall_ind.
  assert (Hch : grows (flat_map tree_ids)
                  (upsert_each
                     (fun n => JsonObjectNode.update_collection n u) ch)).
  { induction IH as [|n r Hn _ IHr].
    - apply grows_ret. intros i. apply not_elem_of_nil.
    - intros w w' res. simpl. unfold bind at 1.
      destruct (JsonObjectNode.update_collection n u w) as [w1 [x|n']] eqn:Hrun1.
      + intros [= <- <-]. destruct (Hn _ _ _ Hrun1) as (Hd & Hc & _).
        repeat split; try done.
      + destruct (Hn _ _ _ Hrun1) as (Hd1 & Hc1 & Hids1).
        unfold bind at 1.
        destruct (upsert_each _ r w1) as [w2 [x|r']] eqn:Hrun2;
          destruct (IHr _ _ _ Hrun2) as (Hd2 & Hc2 & Hids2);
          intros [= <- <-]; (split; [by etrans|]); (split; [congruence|]);
          try done.
        intros a [= <-] i. simpl. rewrite elem_of_app. intros [Hi|Hi].
        * apply Hd2. by eapply Hids1.
        * by eapply Hids2. }
  intros w w' res. rewrite node_upsert_unfold. unfold bind at 1.
  destruct (JsonObject.update_collection c u w) as [w1 [x|c']] eqn:Hrun1;
    destruct (upsert_grows _ _ _ _ _ Hrun1) as (Hd1 & Hc1 & _ & Hid1).
  - intros [= <- <-]. repeat split; try done.
  - unfold bind at 1.
    destruct (upsert_each _ ch w1) as [w2 [x|ch']] eqn:Hrun2;
      destruct (Hch _ _ _ Hrun2) as (Hd2 & Hc2 & Hids2);
      intros [= <- <-]; (split; [by etrans|]); (split; [congruence|]);
      try done.
    intros a [= <-] i. simpl. rewrite elem_of_app. intros [Hi|Hi].
    + destruct (Hid1 c' eq_refl) as (j & Hj & Hstored). rewrite Hj in Hi.
      apply list_elem_of_singleton in Hi as ->.
      apply Hd2. apply elem_of_dom. by eexists.
    + by eapply Hids2.
Qed.

(** A tree whose content names a container the store does not have is
    refused before anything is written. *)
Lemma node_upsert_unresolvable e kids u w :
  (exists t, t ∈ targets e /\ colln w !! container_id t = None) ->
  JsonObject.update_collection e u w = (w, inl TargetValidationError)
  /\ JsonObjectNode.update_collection (Node e kids) u w
     = (w, inl TargetValidationError).
Proof.
  intros Hbad%targets_resolvable_false.
  assert (Hup : JsonObject.update_collection e u w
                = (w, inl TargetValidationError)).
  { unfold JsonObject.update_collection. by rewrite Hbad. }
  split; [done|]. rewrite node_upsert_unfold. unfold bind at 1.
  by rewrite Hup.
Qed.

(** The loop of [post] on a list that fails at its first tree. *)
Lemma post_nodes_fails_at_head session bad rest w w' e :
  JsonObjectNode.update_collection bad (user session) w = (w', inl e) ->
  EntityListHandler.post_nodes session (bad :: rest) w =
    (w', match e with
         | ValidationError =>
             inr (inl (error_response
                         "Some input object does not fit the schema." 417))
         | TargetValidationError =>
             inr (inl (error_response "Target validation failed." 418))
         | _ => inl e
         end).
Proof.
  intros Hrun. simpl. unfold bind at 1, try at 1. rewrite Hrun.
  by destruct e.
Qed.

(** The loop of [post] after a prefix that went through. *)
Lemma post_nodes_after_prefix session pre pre' rest w w1 :
  EntityListHandler.post_nodes session pre w = (w1, inr (inr pre')) ->
  EntityListHandler.post_nodes session (pre ++ rest) w =
    (let (w2, r) := EntityListHandler.post_nodes session rest w1 in
     (w2, match r with
          | inl e => inl e
          | inr (inl resp) => inr (inl resp)
          | inr (inr rest') => inr (inr (pre' ++ rest'))
          end)).
Proof.
  revert pre' w. induction pre as [|n pre IH]; intros pre' w.
  - intros [= <- <-]. simpl.
    destruct (EntityListHandler.post_nodes session rest w) as [w2 [e|[resp|r]]];
      done.
  - simpl. unfold bind at 1 3, try at 1 2.
    destruct (JsonObjectNode.update_collection n (user session) w)
      as [w0 [e|n']].
    + destruct e; simpl; intros [=].
    + unfold bind at 1 2.
      destruct (EntityListHandler.post_nodes session pre w0)
        as [w0' [e|[resp|r]]] eqn:Hpre; simpl; intros [=]; subst.
      rewrite (IH _ _ Hpre).
      destruct (EntityListHandler.post_nodes session rest w1)
        as [w2 [e|[resp|r']]]; done.
Qed.

(** The trees a successful loop returns are stored. *)
Lemma post_nodes_grows session nodes :
  grows (fun r : Response + list TreeNode =>
           match r with
           | inl _ => []
           | inr nodes' => flat_map tree_ids nodes'
           end)
        (EntityListHandler.post_nodes session nodes).
Proof.
  induction nodes as [|n nodes IH].
  - apply grows_ret. intros i. apply not_elem_of_nil.
  - intros w w' res. simpl. unfold bind at 1, try at 1.
    destruct (JsonObjectNode.update_collection n (user session) w)
      as [w1 [e|n']] eqn:Hrun1;
      destruct (node_upsert_grows _ _ _ _ _ Hrun1) as (Hd1 & Hc1 & Hids1).
    + destruct e; intros [= <- <-]; repeat split; try done;
        intros a [= <-] i Hi; by apply not_elem_of_nil in Hi.
    + unfold bind at 1.
      destruct (EntityListHandler.post_nodes session nodes w1)
        as [w2 [e|r]] eqn:Hrun2;
        destruct (IH _ _ _ Hrun2) as (Hd2 & Hc2 & Hids2);
        intros [= <- <-]; (split; [by etrans|]); (split; [congruence|]);
        try done.
      intros a [= <-] i. destruct r as [resp|nodes']; simpl.
      * intros Hi. by apply not_elem_of_nil in Hi.
      * rewrite elem_of_app. intros [Hi|Hi].
        -- apply Hd2. by eapply Hids1.
        -- by eapply (Hids2 _ eq_refl).
Qed.

(** C4: an entity one of whose targets names a container the store does not
    have is refused by the upsert with [TargetValidationError] and nothing is
    written; posted as the content of a tree (after trees that went through,
    if any) by a permitted caller, it makes [POST /entities] answer 418 and
    leave the collection as it was when that tree was reached. *)
Theorem upsert_with_unresolvable_target_is_refused session e kids pre pre'
    rest w w1 :
  permitted session = true ->
  EntityListHandler.post_nodes session pre w = (w1, inr (inr pre')) ->
  (exists t, t ∈ targets e /\ colln w1 !! container_id t = None) ->
  JsonObject.update_collection e (user session) w1
    = (w1, inl TargetValidationError)
  /\ JsonObjectNode.update_collection (Node e kids) (user session) w1
    = (w1, inl TargetValidationError)
  /\ EntityListHandler.post session (pre ++ Node e kids :: rest) w
    = (w1, inr (error_response "Target validation failed." 418)).
Proof.
  intros Hperm Hpre Hbad.
  destruct (node_upsert_unresolvable e kids (user session) w1 Hbad)
    as [Hup Hnode].
  split; [done|]. split; [done|].
  unfold EntityListHandler.post. rewrite Hperm. simpl. unfold bind at 1.
  rewrite (post_nodes_after_prefix _ _ _ _ _ _ Hpre).
  by rewrite (post_nodes_fails_at_head _ _ _ _ _ _ Hnode).
Qed.

(** C10: [POST /entities] takes the trees in order and stops at the first
    one whose upsert fails validation: when the trees before it went through
    and tree k raises a validation error, the answer is the error (417 or
    418), the world is the one tree k left, whatever follows tree k (the
    answer and the world are those of the request cut after tree k), and every
    id of the trees before k is still in the collection. *)
Theorem post_stops_at_first_invalid_tree session pre pre' bad rest w w1 w2 e :
  permitted session = true ->
  EntityListHandler.post_nodes session pre w = (w1, inr (inr pre')) ->
  JsonObjectNode.update_collection bad (user session) w1 = (w2, inl e) ->
  e = ValidationError \/ e = TargetValidationError ->
  exists resp,
    EntityListHandler.post session (pre ++ bad :: rest) w = (w2, inr resp)
    /\ EntityListHandler.post session (pre ++ [bad]) w = (w2, inr resp)
    /\ code resp = match e with ValidationError => 417 | _ => 418 end
    /\ (forall i, i ∈ flat_map tree_ids pre' -> i ∈ dom (colln w2))
    /\ dom (colln w) ⊆ dom (colln w2).
Proof.
  intros Hperm Hpre Hbad He.
  destruct (post_nodes_grows _ _ _ _ _ Hpre) as (Hd1 & _ & Hids1).
  destruct (node_upsert_grows _ _ _ _ _ Hbad) as (Hd2 & _ & _).
  exists (match e with
          | ValidationError =>
              error_response "Some input object does not fit the schema." 417
          | _ => error_response "Target validation failed." 418
          end).
  unfold EntityListHandler.post. rewrite Hperm. simpl. unfold bind.
  rewrite !(post_nodes_after_prefix _ _ _ _ _ _ Hpre).
  rewrite !(post_nodes_fails_at_head _ _ _ _ _ _ Hbad).
  repeat split.
  - by destruct He as [-> | ->].
  - by destruct He as [-> | ->].
  - by destruct He as [-> | ->].
  - intros i Hi. apply Hd2. by eapply (Hids1 _ eq_refl).
  - by etrans.
Qed.

End PostingTrees.

(** ** Uploading a book *)

Section BookUpload.
Context `{Externals}.

Lemma check_files_finds files :
  Exists (fun f => is_extension_allowed (BookList.input_filename f)
                     BookList.allowed_extensions = false) files ->
  exists name, BookList.check_files files = Some name.
Proof.
  induction 1 as [f rest Hbad | f rest _ IH]; simpl.
  - rewrite Hbad. by eexists.
  - destruct (is_extension_allowed _ _); simpl; [exact IH | by eexists].
Qed.

(** C7, as amended: in [POST /books], for a request that reaches the check
    of the files (the caller is permitted and the book is an image
    [BookPortion] without [_id]), when the sanitised name of an uploaded
    file, [secure_filename(os.path.basename(filename))], which is the name
    the code tests, has an extension outside [.jpg], [.png], [.gif], the
    request is answered 418 and the world is as it was: every file is checked
    before the first write, so no entity is persisted. *)
Theorem disallowed_extension_fails_before_any_write session form w :
  permitted session = true ->
  BookList.is_image_book (BookList.book_json form) = true ->
  _id (BookList.book_json form) = None ->
  Exists (fun f => is_extension_allowed (BookList.input_filename f)
                     BookList.allowed_extensions = false)
         (BookList.in_files form) ->
  exists resp,
    BookList.post session form w = (w, inr resp) /\ code resp = 418.
Proof.
  intros Hperm Himage Hnoid [name Hname]%check_files_finds.
  unfold BookList.post. rewrite Hperm, Himage, Hnoid, Hname. simpl.
  by eexists.
Qed.

Lemma names_resolvable c cid a :
  JsonObject.targets_resolvable c a = true ->
  JsonObject.names_container cid a = true ->
  is_Some (c !! cid).
Proof.
  unfold JsonObject.targets_resolvable, JsonObject.names_container.
  rewrite forallb_forall. intros Hall (t & Hin & Heq)%existsb_exists.
  apply String.eqb_eq in Heq. subst cid.
  specialize (Hall t Hin). by apply bool_decide_eq_true in Hall.
Qed.

(** Whatever the loop over the files does, it only adds page entities of the
    book, each under an id the collection did not have. *)
Lemma save_pages_adds_pages session book book_id files idx w w' r :
  _id book = Some book_id ->
  BookList.save_pages session book idx files w = (w', r) ->
  colln w ⊆ colln w'
  /\ detect_calls w' = detect_calls w
  /\ forall k v, colln w' !! k = Some v ->
       colln w !! k = Some v
       \/ (colln w !! k = None
           /\ exists j, v = set_id k (upload_page j book_id)).
Proof.
  intros Hid. revert idx w. induction files as [|f rest IH]; intros idx w.
  - intros [= <- <-]. split; [done|]. split; [done|]. by left.
  - simpl. unfold bind at 1, lift at 1. rewrite Hid. simpl.
    unfold bind at 1. fold (upload_page (idx + 1) book_id).
    destruct (upsert_outcome (upload_page (idx + 1) book_id) (user session) w)
      as [[_ Hr]|[(_ & _ & Hr)|(_ & _ & Hr)]]; rewrite Hr; simpl.
    + intros [= <- <-]. split; [done|]. split; [done|]. by left.
    + intros [= <- <-]. split; [done|]. split; [done|]. by left.
    + set (i := fresh (dom (colln w))).
      set (page := set_id i (upload_page (idx + 1) book_id)).
      assert (Hfresh : colln w !! i = None) by apply fresh_id_unused.
      assert (Hstep : forall k v,
                <[i := page]> (colln w) !! k = Some v ->
                colln w !! k = Some v
                \/ (colln w !! k = None
                    /\ exists j, v = set_id k (upload_page j book_id))).
      { intros k v [[<- <-]|[_ Hold]]%lookup_insert_Some; [|by left].
        right. split; [done|]. by eexists. }
      destruct (save_page_files page f).
      * intros [= <- <-]. rewrite colln_set_colln.
        split; [by apply insert_subseteq|]. done.
      * intros Hrun. apply IH in Hrun as (Hsub & Hcalls & Hnew).
        rewrite colln_set_colln in Hsub, Hnew.
        split; [etrans; [|exact Hsub]; by apply insert_subseteq|].
        split; [done|]. intros k v Hk.
        destruct (Hnew k v Hk) as [Hold|[Hnone Hpage]]; [by apply Hstep|].
        right. split; [|done].
        by apply lookup_insert_None in Hnone as [? _].
Qed.

(** C6: in a permitted upload that passed the checks, once the book is
    persisted, an exception raised while the pages are created and their
    files saved makes the handler delete the tree of the book and answer
    419: the book is no longer in the collection and neither is any page of
    it (every document left was there before the upload); when no stored
    document targeted a missing container, the world is exactly as it was
    before the upload. The tree is found to the depth used when none is
    given, taken to be at least 1. *)
Theorem failed_page_save_rolls_back_book session form e w :
  let book_id := fresh (dom (colln w)) in
  let book := set_id book_id (BookList.book_json form) in
  let w1 := set_colln (<[book_id := book]> (colln w)) w in
  permitted session = true ->
  BookList.is_image_book (BookList.book_json form) = true ->
  _id (BookList.book_json form) = None ->
  BookList.check_files (BookList.in_files form) = None ->
  JsonObject.targets_resolvable (colln w) (BookList.book_json form) = true ->
  schema_valid (BookList.book_json form) = true ->
  1 <= default_depth ->
  snd (BookList.save_pages session book (-1) (BookList.in_files form) w1)
    = inl e ->
  exists w3,
    BookList.post session form w
      = (w3, inr (error_response
                    ("Unexpected error while saving files: "
                       +:+ exn_name e) 419))
    /\ JsonObject.update_collection (BookList.book_json form) (user session)
         w = (w1, inr book)
    /\ colln w3 !! book_id = None
    /\ colln w3 ⊆ colln w
    /\ detect_calls w3 = detect_calls w
    /\ (well_targeted (colln w) -> w3 = w).
Proof.
  intros book_id book w1 Hperm Himage Hnoid Hfiles Hres Hschema Hdepth Hraise.
  assert (Hfresh : colln w !! book_id = None) by apply fresh_id_unused.
  assert (Hbook : JsonObject.update_collection (BookList.book_json form)
                    (user session) w = (w1, inr book)).
  { destruct (upsert_outcome (BookList.book_json form) (user session) w)
      as [[Hbad _]|[(_ & Hbad & _)|(_ & _ & Hr)]]; [congruence..|].
    rewrite Hr, Hnoid. done. }
  assert (Hid : _id book = Some book_id) by done.
  destruct (BookList.save_pages session book (-1) (BookList.in_files form) w1)
    as [w2 r] eqn:Hsave.
  simpl in Hraise. subst r.
  destruct (save_pages_adds_pages _ _ _ _ _ _ _ _ Hid Hsave)
    as (Hsub & Hcalls & Hnew).
  unfold w1 in Hsub, Hnew. rewrite colln_set_colln in Hsub, Hnew.
  assert (Hstored : colln w2 !! book_id = Some book)
    by (eapply lookup_weaken; [apply lookup_insert_eq | exact Hsub]).
  (* what the collection holds when the loop has stopped *)
  assert (Hcases : forall k v, colln w2 !! k = Some v ->
            (k = book_id /\ v = book)
            \/ (k <> book_id /\ colln w !! k = Some v)
            \/ (k <> book_id /\ colln w !! k = None
                /\ exists j, v = set_id k (upload_page j book_id))).
  { intros k v Hk. destruct (Hnew k v Hk) as [Hold|[Hnone Hpage]].
    - apply lookup_insert_Some in Hold as [[<- <-]|[Hne Hold]]; [by left|].
      right. left. split; [congruence | done].
    - apply lookup_insert_None in Hnone as [Hnone Hne].
      right. right. split; [congruence | done]. }
  set (tree := JsonObjectNode.fill_descendents (colln w2)
                 (JsonObjectNode.from_details book) default_depth None).
  destruct (tree_delete_spec tree None w2) as (w3 & Hdel & Hc3 & Hl3).
  assert (Hpost : BookList.post session form w
                  = (w3, inr (error_response
                                ("Unexpected error while saving files: "
                                   +:+ exn_name e) 419))).
  { unfold BookList.post. rewrite Hperm, Himage, Hnoid, Hfiles. simpl.
    unfold bind at 1. rewrite Hbook.
    unfold bind at 1, try at 1. rewrite Hsave.
    unfold bind at 1.
    rewrite (node_delete_stored (JsonObjectNode.from_details book) book_id
               None w2 Hid) by (by eexists).
    fold tree. by rewrite Hdel. }
  (* the tree of the book: the book, then its targetters *)
  destruct (Z.to_nat default_depth) as [|m] eqn:Hm; [lia|].
  assert (Htree : tree_ids tree
                  = book_id
                    :: flat_map tree_ids
                         (map (JsonObjectNode.build_tree (colln w2) None m)
                            (JsonObject.get_targetting_entities (colln w2)
                               book None))).
  { unfold tree, JsonObjectNode.fill_descendents. rewrite Hm. reflexivity. }
  assert (Hroot : book_id ∈ tree_ids tree)
    by (rewrite Htree; apply list_elem_of_here).
  assert (Hpages : forall k j,
            colln w2 !! k = Some (set_id k (upload_page j book_id)) ->
            k ∈ tree_ids tree).
  { intros k j Hk. rewrite Htree. apply list_elem_of_further.
    apply list_elem_of_In, in_flat_map.
    exists (JsonObjectNode.build_tree (colln w2) None m
              (set_id k (upload_page j book_id))).
    split.
    - apply in_map, list_elem_of_In, targetting_entities_elem.
      exists book_id. split; [done|]. split; [by exists k|].
      unfold JsonObject.names_container. simpl.
      by rewrite String.eqb_refl.
    - apply list_elem_of_In, root_id_in_tree_ids.
      by rewrite build_tree_content. }
  exists w3. split; [done|]. split; [done|]. split; [|split; [|split]].
  - rewrite Hl3. by rewrite bool_decide_eq_true_2.
  - apply map_subseteq_spec. intros k v. rewrite Hl3.
    case_bool_decide as Hin; [done|]. intros Hk.
    destruct (Hcases k v Hk) as [[-> _]|[[_ Hold]|(_ & _ & j & ->)]];
      [done | done |].
    exfalso. apply Hin. by eapply Hpages.
  - by rewrite Hc3, Hcalls.
  - intros Hwell.
    assert (Hres' : JsonObject.targets_resolvable (colln w) book = true)
      by exact Hres.
    (* what names the book is a page; nothing names a page *)
    assert (Hnames_book : forall k' a,
              colln w2 !! k' = Some a ->
              JsonObject.names_container book_id a = true ->
              k' <> book_id /\ colln w !! k' = None
              /\ exists j, a = set_id k' (upload_page j book_id)).
    { intros k' a Hk' Hnames.
      destruct (Hcases k' a Hk') as [[-> ->]|[[_ Hold]|(Hne & Hnone & Hp)]];
        [| |done].
      - apply (names_resolvable (colln w)) in Hnames; [|done].
        rewrite Hfresh in Hnames. by destruct Hnames.
      - apply (names_resolvable (colln w)) in Hnames;
          [|by eapply (Hwell k' a)].
        rewrite Hfresh in Hnames. by destruct Hnames. }
    assert (Hnames_page : forall k j,
              k <> book_id -> colln w !! k = None ->
              JsonObject.get_targetting_entities (colln w2)
                (set_id k (upload_page j book_id)) None = []).
    { intros k j Hne Hnone.
      destruct (JsonObject.get_targetting_entities (colln w2)
                  (set_id k (upload_page j book_id)) None) as [|a l] eqn:Ht;
        [done|].
      assert (Ha : a ∈ JsonObject.get_targetting_entities (colln w2)
                         (set_id k (upload_page j book_id)) None)
        by (rewrite Ht; apply list_elem_of_here).
      apply targetting_entities_elem in Ha
        as (cid & [= <-] & [k' Hk'] & Hnames).
      apply andb_true_iff in Hnames as [Hnames _].
      destruct (Hcases k' a Hk') as [[-> ->]|[[_ Hold]|(_ & _ & j' & ->)]].
      - apply (names_resolvable (colln w)) in Hnames; [|done].
        rewrite Hnone in Hnames. by destruct Hnames.
      - apply (names_resolvable (colln w)) in Hnames;
          [|by eapply (Hwell k' a)].
        rewrite Hnone in Hnames. by destruct Hnames.
      - unfold JsonObject.names_container in Hnames. simpl in Hnames.
        rewrite orb_false_r in Hnames. apply String.eqb_eq in Hnames.
        congruence. }
    assert (Hfreshids : forall k, k ∈ tree_ids tree -> colln w !! k = None).
    { intros k. rewrite Htree. intros [->|Hin]%elem_of_cons; [done|].
      apply list_elem_of_In, in_flat_map in Hin as (t & Ht & Hk).
      apply in_map_iff in Ht as (a & <- & Ha).
      apply list_elem_of_In, targetting_entities_elem in Ha
        as (cid & [= <-] & [k' Hk'] & Hnames).
      apply andb_true_iff in Hnames as [Hnames _].
      destruct (Hnames_book k' a Hk' Hnames) as (Hne & Hnone & j & ->).
      assert (Hleaf : tree_ids (JsonObjectNode.build_tree (colln w2) None m
                                  (set_id k' (upload_page j book_id)))
                      = [k']).
      { destruct m as [|m']; [done|]. simpl.
        by rewrite (Hnames_page k' j Hne Hnone). }
      rewrite Hleaf in Hk. apply list_elem_of_In in Hk.
      by apply list_elem_of_singleton in Hk as ->. }
    apply world_eq; [|by rewrite Hc3, Hcalls].
    apply map_eq. intros k. rewrite Hl3. case_bool_decide as Hin.
    + symmetry. by apply Hfreshids.
    + destruct (colln w2 !! k) as [v|] eqn:Hk.
      * destruct (Hcases k v Hk) as [[-> _]|[[_ Hold]|(_ & _ & j & ->)]];
          [done | done |].
        exfalso. apply Hin. by eapply Hpages.
      * symmetry. eapply lookup_weaken_None; [exact Hk|].
        etrans; [|exact Hsub]. by apply insert_subseteq.
Qed.

End BookUpload.

(** ** Default depths *)

(** C8: without a [depth] argument, [GET /entities/<id>] builds the tree
    with depth 1, the entity with its immediate targetters as leaves, and
    [GET /entities/<id>/targetters] uses depth 10: it answers with the
    children of the depth-10 tree of the entity, each targetter filled to
    depth 9. *)
Theorem default_depths id targetter_class w :
  EntityHandler.get id None w = EntityHandler.get id (Some 1) w
  /\ EntityHandler.get id None w =
       (w, inr match colln w !! id with
               | None => error_response "No such entity id" 404
               | Some entity =>
                   {| body :=
                        JsonTree
                          (Node entity
                             (map (fun t => Node t [])
                                (JsonObject.get_targetting_entities (colln w)
                                   entity None)));
                      code := 200 |}
               end)
  /\ EntityTargettersHandler.get id None targetter_class w =
       EntityTargettersHandler.get id (Some 10) targetter_class w
  /\ EntityTargettersHandler.get id None targetter_class w =
       (w, inr {| body :=
                    JsonTrees
                      (children
                         (JsonObjectNode.fill_descendents (colln w)
                            (JsonObjectNode.from_details
                               (EntityTargettersHandler.entity_with_id id))
                            10 targetter_class));
                  code := 200 |})
  /\ EntityTargettersHandler.get id None targetter_class w =
       (w, inr {| body :=
                    JsonTrees
                      (map (JsonObjectNode.build_tree (colln w)
                              targetter_class 9)
                         (JsonObject.get_targetting_entities (colln w)
                            (EntityTargettersHandler.entity_with_id id)
                            targetter_class));
                  code := 200 |}).
Proof.
  split; [reflexivity|]. split.
  { unfold EntityHandler.get, JsonObject.from_id. simpl.
    destruct (colln w !! id) as [entity|]; reflexivity. }
  split; [reflexivity|].
  assert (Hshape :
    EntityTargettersHandler.get id None targetter_class w =
       (w, inr {| body :=
                    JsonTrees
                      (map (JsonObjectNode.build_tree (colln w)
                              targetter_class 9)
                         (JsonObject.get_targetting_entities (colln w)
                            (EntityTargettersHandler.entity_with_id id)
                            targetter_class));
                  code := 200 |})).
  { unfold EntityTargettersHandler.get. simpl. by rewrite map_map. }
  split; [|exact Hshape]. rewrite Hshape. reflexivity.
Qed.

(** ** The statements on the concrete setting *)

Example splitext_examples :
  splitext "scan.tar.gz" = ("scan.tar", ".gz")
  /\ splitext ".bashrc" = (".bashrc", "")
  /\ splitext "dir.d/plain" = ("dir.d/plain", "")
  /\ splitext "photo.JPG" = ("photo", ".JPG").
Proof. repeat split; reflexivity. Qed.

Example is_extension_allowed_examples :
  is_extension_allowed "page.jpg" BookList.allowed_extensions = true
  /\ is_extension_allowed "page.tiff" BookList.allowed_extensions = false
  /\ is_extension_allowed "page.JPG" BookList.allowed_extensions = false
  /\ is_extension_allowed "jpg" BookList.allowed_extensions = false.
Proof. repeat split; reflexivity. Qed.

Example region_to_rectangle_example :
  AllPageAnnotationsHandler.region_to_rectangle
    (Examples.region [10#1; 10#1; 50#1; 60#1; 9#10]%Q)
  = inr {| rect_x := 10; rect_y := 10; rect_w := 40; rect_h := 50 |}
  /\ AllPageAnnotationsHandler.region_to_rectangle
       (Examples.region [10#1; 10#1; 50#1]%Q) = inl IndexError.
Proof. split; reflexivity. Qed.

(** With the force flag and a system-inferred annotation among the known
    ones, the known annotations come back and the detector is left alone. *)
Example forced_call_with_system_annotation :
  AllPageAnnotationsHandler.update_image_annotations (H := Examples.externals)
    Examples.page Examples.one_region_image true Examples.annotated_by_both
  = (Examples.annotated_by_both,
     inr [Examples.user_annotation; Examples.system_annotation]).
Proof. vm_compute. reflexivity. Qed.

(** Without permission nothing is looked at and nothing is written. *)
Example stranger_is_turned_away :
  BookList.post (H := Examples.externals) Examples.stranger
    Examples.upload_with_corrupt_file Examples.bare_page
  = (Examples.bare_page, inr (error_response "Unauthorized" 401))
  /\ EntityListHandler.post (H := Examples.externals) Examples.stranger
       [Node Examples.fresh_annotation []] Examples.bare_page
     = (Examples.bare_page, inr {| body := EmptyString_; code := 401 |})
  /\ EntityListHandler.delete (H := Examples.externals) Examples.stranger
       [Node Examples.page []] Examples.bare_page
     = (Examples.bare_page, inr {| body := EmptyString_; code := 401 |}).
Proof. repeat split; reflexivity. Qed.

(** An upload of two good files: the book comes back with its two pages. *)
Example upload_of_two_pages :
  exists w' tree,
    BookList.post (H := Examples.externals) Examples.editor
      {| BookList.book_json := Examples.new_book;
         BookList.in_files := [ {| filename := "a.jpg" |};
                                {| filename := "b.png" |} ] |}
      Examples.bare_page = (w', inr {| body := JsonTree tree; code := 200 |})
    /\ content tree = Examples.stored_book
    /\ map (fun n => title (content n)) (children tree)
       = [Some "pg_0"; Some "pg_1"]
    /\ size (colln w') = 4%nat.
Proof.
  eexists _, _. split; [vm_compute; reflexivity|].
  repeat split; by vm_compute.
Qed.

Lemma repeated_call_witness :
  exists w1 first w2 second,
    AllPageAnnotationsHandler.update_image_annotations (H := Examples.externals)
      Examples.page Examples.scenario_image false Examples.annotated_by_user
      = (w1, inr first)
    /\ AllPageAnnotationsHandler.update_image_annotations
         (H := Examples.externals) Examples.page Examples.one_region_image
         false w1 = (w2, inr second)
    /\ second = first
    /\ map _id second = map _id first
    /\ detect_calls w1 = detect_calls Examples.annotated_by_user
    /\ detect_calls w2 = detect_calls w1
    /\ colln w2 = colln Examples.annotated_by_user.
Proof.
  apply (@repeated_call_returns_same_annotations Examples.externals).
  vm_compute. discriminate.
Defined.

(** C2, as stated, fails: the page has one annotation, drawn by a person and
    not system-inferred; called with the force flag the handler does not
    return it: the detector is invoked, one annotation is created and the
    answer is that new annotation alone. *)
Lemma forced_call_on_user_annotations_runs_detection :
  JsonObject.get_targetting_entities (colln Examples.annotated_by_user)
    Examples.page (Some ImageAnnotation_wire_typeid)
    = [Examples.user_annotation]
  /\ AllPageAnnotationsHandler.filter_system_inferred
       [Examples.user_annotation] = inr []
  /\ exists w' new,
       AllPageAnnotationsHandler.update_image_annotations
         (H := Examples.externals) Examples.page Examples.one_region_image
         true Examples.annotated_by_user = (w', inr new)
       /\ new <> [Examples.user_annotation]
       /\ detect_calls Examples.annotated_by_user = 0%nat
       /\ detect_calls w' = 1%nat
       /\ size (colln Examples.annotated_by_user) = 2%nat
       /\ size (colln w') = 3%nat
       /\ new = [set_id "0"
                   (inferred_annotation "p1" (Rectangle_from_details 0 0 8 9))].
Proof.
  split; [by vm_compute|]. split; [by vm_compute|].
  eexists _, _. split; [vm_compute; reflexivity|].
  split; [discriminate|]. repeat split; by vm_compute.
Qed.

Lemma force_flag_witness :
  exists w' r,
    AllPageAnnotationsHandler.update_image_annotations
      (H := Examples.externals) Examples.page Examples.one_region_image
      true Examples.annotated_by_user = (w', r)
    /\ AllPageAnnotationsHandler.annotate_regions
         (H := Examples.externals) Examples.page
         (text_regions Examples.one_region_image) []
         {| colln := colln Examples.annotated_by_user;
            detect_calls := S (detect_calls Examples.annotated_by_user) |}
       = (w', r)
    /\ detect_calls w' = S (detect_calls Examples.annotated_by_user)
    /\ colln Examples.annotated_by_user ⊆ colln w'.
Proof.
  refine (proj2 (@force_flag_redetects_unless_system_inferred
                   Examples.externals Examples.page Examples.one_region_image
                   Examples.annotated_by_user [] _ _) eq_refl).
  - vm_compute. discriminate.
  - vm_compute. reflexivity.
Defined.

Lemma detection_scenario_witness :
  exists w' i1 i2,
    let a1 :=
      {| _id := Some i1; jsonClass := "ImageAnnotation";
         targets := [ {| container_id := "p1";
                         rectangle := Some {| rect_x := 10; rect_y := 10;
                                              rect_w := 40; rect_h := 50 |};
                         position := None |} ];
         source := Some {| source_type := "system_inferred";
                           source_id := "pyCV2" |};
         title := None; base_data := None; portion_class := None |} in
    let a2 :=
      {| _id := Some i2; jsonClass := "ImageAnnotation";
         targets := [ {| container_id := "p1";
                         rectangle := Some {| rect_x := 100; rect_y := 100;
                                              rect_w := 50; rect_h := 40 |};
                         position := None |} ];
         source := Some {| source_type := "system_inferred";
                           source_id := "pyCV2" |};
         title := None; base_data := None; portion_class := None |} in
    AllPageAnnotationsHandler.update_image_annotations
      (H := Examples.externals) Examples.page Examples.scenario_image false
      Examples.bare_page = (w', inr [a1; a2])
    /\ colln Examples.bare_page !! i1 = None
    /\ colln Examples.bare_page !! i2 = None
    /\ i1 <> i2
    /\ colln w' = <[i2 := a2]> (<[i1 := a1]> (colln Examples.bare_page))
    /\ detect_calls w' = S (detect_calls Examples.bare_page).
Proof.
  apply (@detection_scenario_creates_two_annotations Examples.externals
           Examples.page "p1" Examples.scenario_image false Examples.bare_page
           None None).
  - reflexivity.
  - vm_compute. by eexists.
  - vm_compute. reflexivity.
  - reflexivity.
  - intros rect. reflexivity.
Defined.

Lemma forced_detection_witness :
  exists w' new,
    AllPageAnnotationsHandler.update_image_annotations
      (H := Examples.externals) Examples.page Examples.one_region_image true
      Examples.annotated_by_user = (w', inr new)
    /\ detect_calls w' = S (detect_calls Examples.annotated_by_user)
    /\ colln Examples.annotated_by_user ⊆ colln w'
    /\ (forall a,
          a ∈ JsonObject.get_targetting_entities
                (colln Examples.annotated_by_user) Examples.page
                (Some ImageAnnotation_wire_typeid) ->
          (a ∉ new)
          /\ exists i, colln Examples.annotated_by_user !! i = Some a
                       /\ colln w' !! i = Some a)
    /\ length new = length (text_regions Examples.one_region_image)
    /\ Forall (fun a =>
                 exists i, _id a = Some i
                   /\ colln Examples.annotated_by_user !! i = None
                   /\ colln w' !! i = Some a
                   /\ (source_type <$> source a) = Some "system_inferred") new.
Proof.
  apply (@forced_detection_keeps_known_annotations Examples.externals
           Examples.page "p1").
  - unfold consistent. apply (bool_decide_unpack _). vm_compute. exact I.
  - reflexivity.
  - vm_compute. by eexists.
  - vm_compute. discriminate.
  - vm_compute. reflexivity.
  - repeat constructor.
  - intros rect. reflexivity.
Defined.

Lemma unresolvable_target_witness :
  JsonObject.update_collection (H := Examples.externals)
    Examples.dangling_annotation (user Examples.editor) Examples.bare_page
    = (Examples.bare_page, inl TargetValidationError)
  /\ JsonObjectNode.update_collection (H := Examples.externals)
       (Node Examples.dangling_annotation []) (user Examples.editor)
       Examples.bare_page
     = (Examples.bare_page, inl TargetValidationError)
  /\ EntityListHandler.post (H := Examples.externals) Examples.editor
       ([] ++ Node Examples.dangling_annotation []
           :: [Node Examples.fresh_annotation []]) Examples.bare_page
     = (Examples.bare_page,
        inr (error_response "Target validation failed." 418)).
Proof.
  apply (@upsert_with_unresolvable_target_is_refused Examples.externals
           Examples.editor Examples.dangling_annotation [] [] []).
  - reflexivity.
  - reflexivity.
  - eexists. split; [apply list_elem_of_here|]. vm_compute. reflexivity.
Defined.

Lemma delete_absent_witness :
  exists w1,
    EntityListHandler.delete (H := Examples.externals) Examples.editor
      [Node (set_id "gone" Examples.fresh_annotation) []] Examples.bare_page
      = (w1, inr {| body := EmptyDict; code := 200 |})
    /\ EntityListHandler.delete (H := Examples.externals) Examples.editor
         [Node (set_id "gone" Examples.fresh_annotation) []] w1
      = (w1, inr {| body := EmptyDict; code := 200 |})
    /\ w1 = Examples.bare_page.
Proof.
  destruct (@delete_is_total_and_idempotent Examples.externals
              Examples.editor
              [Node (set_id "gone" Examples.fresh_annotation) []]
              Examples.bare_page eq_refl) as (w1 & Hfirst & Hsecond & Hsame).
  exists w1. split; [exact Hfirst|]. split; [exact Hsecond|].
  apply Hsame. intros i Hi. simpl in Hi.
  apply list_elem_of_singleton in Hi. subst i. reflexivity.
Defined.

Lemma rollback_witness :
  exists w3,
    BookList.post (H := Examples.externals) Examples.editor
      Examples.upload_with_corrupt_file Examples.bare_page
      = (w3, inr (error_response
                    "Unexpected error while saving files: IOError" 419))
    /\ JsonObject.update_collection (H := Examples.externals)
         Examples.new_book (Some "editor") Examples.bare_page
       = (Examples.book_stored, inr Examples.stored_book)
    /\ colln w3 !! "0" = None
    /\ colln w3 ⊆ colln Examples.bare_page
    /\ detect_calls w3 = detect_calls Examples.bare_page
    /\ w3 = Examples.bare_page.
Proof.
  destruct (@failed_page_save_rolls_back_book Examples.externals
              Examples.editor Examples.upload_with_corrupt_file IOError
              Examples.bare_page)
    as (w3 & Hpost & Hbook & Hgone & Hsub & Hcalls & Hsame).
  - reflexivity.
  - reflexivity.
  - reflexivity.
  - reflexivity.
  - reflexivity.
  - reflexivity.
  - simpl. lia.
  - vm_compute. reflexivity.
  - exists w3. split; [exact Hpost|]. split; [exact Hbook|].
    split; [exact Hgone|]. split; [exact Hsub|]. split; [exact Hcalls|].
    apply Hsame. unfold well_targeted. apply (bool_decide_unpack _).
    vm_compute. exact I.
Defined.

(** C7, as stated, fails where the name as sent and the sanitised name part.
    A permitted upload of a new image book has one file, sent as
    [photo.jpg!]. The extension of the file's name, [.jpg!], is outside the
    allowed set, but [secure_filename] drops the exclamation mark and the
    code tests [photo.jpg]: the upload is answered 200, not 418, and the book
    and its page are stored. *)
Lemma raw_name_extension_does_not_refuse :
  snd (splitext "photo.jpg!") = ".jpg!"
  /\ is_extension_allowed "photo.jpg!" BookList.allowed_extensions = false
  /\ BookList.input_filename (H := Samples.with_werkzeug)
       {| filename := "photo.jpg!" |} = "photo.jpg"
  /\ permitted Examples.editor = true
  /\ BookList.is_image_book Examples.new_book = true
  /\ _id Examples.new_book = None
  /\ exists w' resp,
       BookList.post (H := Samples.with_werkzeug) Examples.editor
         (Samples.upload_of Examples.new_book ["photo.jpg!"])
         Examples.bare_page = (w', inr resp)
       /\ code resp = 200
       /\ code resp <> 418
       /\ size (colln w') = (size (colln Examples.bare_page) + 2)%nat
       /\ colln w' <> colln Examples.bare_page.
Proof.
  repeat (split; [vm_compute; reflexivity|]).
  eexists _, _. split; [vm_compute; reflexivity|].
  split; [reflexivity|]. split; [discriminate|].
  split; [vm_compute; reflexivity|].
  intros Heq. apply (f_equal size) in Heq. vm_compute in Heq. discriminate.
Qed.

Lemma disallowed_extension_witness :
  exists resp,
    BookList.post (H := Examples.externals) Examples.editor
      (Samples.upload_of Examples.new_book ["a.jpg"; "scan.tiff"])
      Examples.bare_page = (Examples.bare_page, inr resp)
    /\ code resp = 418.
Proof.
  apply (@disallowed_extension_fails_before_any_write Examples.externals
           Examples.editor
           (Samples.upload_of Examples.new_book ["a.jpg"; "scan.tiff"])
           Examples.bare_page).
  - reflexivity.
  - reflexivity.
  - reflexivity.
  - simpl. apply Exists_cons_tl, Exists_cons_hd. reflexivity.
Defined.

Lemma post_stops_witness :
  exists resp,
    EntityListHandler.post (H := Examples.externals) Examples.editor
      ([Node Examples.fresh_annotation []]
         ++ Node Examples.dangling_annotation []
         :: [Node Examples.fresh_annotation []]) Examples.bare_page
      = (Examples.first_tree_stored, inr resp)
    /\ EntityListHandler.post (H := Examples.externals) Examples.editor
         ([Node Examples.fresh_annotation []]
            ++ [Node Examples.dangling_annotation []]) Examples.bare_page
      = (Examples.first_tree_stored, inr resp)
    /\ code resp = 418
    /\ (forall i,
          i ∈ flat_map tree_ids [Node (set_id "0" Examples.fresh_annotation) []] ->
          i ∈ dom (colln Examples.first_tree_stored))
    /\ dom (colln Examples.bare_page) ⊆ dom (colln Examples.first_tree_stored).
Proof.
  apply (@post_stops_at_first_invalid_tree Examples.externals Examples.editor
           [Node Examples.fresh_annotation []]
           [Node (set_id "0" Examples.fresh_annotation) []]
           (Node Examples.dangling_annotation [])
           [Node Examples.fresh_annotation []]
           Examples.bare_page Examples.first_tree_stored
           Examples.first_tree_stored TargetValidationError).
  - reflexivity.
  - vm_compute. reflexivity.
  - vm_compute. reflexivity.
  - by right.
Defined.

(** ** Further properties: file names *)

Lemma str_take_drop n p : str_take n p +:+ str_drop n p = p.
Proof.
  revert p. induction n as [|n IH]; intros [|c r]; simpl; try done.
  change (String c (str_take n r +:+ str_drop n r) = String c r).
  by rewrite IH.
Qed.

Lemma str_app_empty p : p +:+ "" = p.
Proof.
  induction p as [|c r IH]; [done|].
  change (String c (r +:+ "") = String c r). by rewrite IH.
Qed.

Lemma splitext_join p : fst (splitext p) +:+ snd (splitext p) = p.
Proof.
  unfold splitext.
  destruct (_ && _); simpl; [apply str_take_drop | apply str_app_empty].
Qed.

Lemma rfind_lower_bound ch p : -1 <= rfind ch p.
Proof.
  induction p as [|c r IH]; simpl; [lia|].
  destruct (0 <=? rfind ch r) eqn:Hle; [lia|].
  destruct (Ascii.eqb c ch); lia.
Qed.

Lemma rfind_absent ch p :
  ch ∉ String.list_ascii_of_string p -> rfind ch p = -1.
Proof.
  induction p as [|c r IH]; simpl; [done|].
  intros Hnot. apply not_elem_of_cons in Hnot as [Hne Hr].
  rewrite (IH Hr). simpl.
  destruct (Ascii.eqb c ch) eqn:Heq; [|done].
  apply Ascii.eqb_eq in Heq. congruence.
Qed.

(** The extension test only lets names through that end in one of the
    allowed extensions. *)
Theorem allowed_name_ends_with_allowed_extension p allowed :
  is_extension_allowed p allowed = true ->
  exists root ext, In ext allowed /\ p = root +:+ ext.
Proof.
  unfold is_extension_allowed. pose proof (splitext_join p) as Hjoin.
  destruct (splitext p) as [root ext]. simpl in Hjoin.
  intros (ext' & Hin & Heq)%existsb_exists.
  apply String.eqb_eq in Heq. subst ext'. by exists root, ext.
Qed.

Lemma allowed_name_witness :
  exists root ext,
    In ext BookList.allowed_extensions /\ "scan.1.png" = root +:+ ext.
Proof.
  apply (allowed_name_ends_with_allowed_extension "scan.1.png"
           BookList.allowed_extensions).
  reflexivity.
Defined.

(** A name without a dot has the empty extension: it is refused by every
    set of extensions that does not hold the empty string. *)
Theorem name_without_dot_is_refused p allowed :
  "."%char ∉ String.list_ascii_of_string p ->
  ~ In "" allowed ->
  is_extension_allowed p allowed = false.
Proof.
  intros Hdot Hempty. unfold is_extension_allowed, splitext.
  rewrite (rfind_absent "." p Hdot).
  pose proof (rfind_lower_bound "/" p) as Hsep.
  replace (rfind "/" p <? -1) with false by (symmetry; apply Z.ltb_ge; lia).
  simpl. apply not_true_is_false.
  intros (ext & Hin & Heq)%existsb_exists.
  destruct ext; [done | discriminate].
Qed.

Lemma name_without_dot_witness :
  is_extension_allowed "jpg" BookList.allowed_extensions = false.
Proof.
  apply (name_without_dot_is_refused "jpg" BookList.allowed_extensions).
  - apply (bool_decide_unpack _). vm_compute. exact I.
  - simpl. intros [Hf|[Hf|[Hf|[]]]]; discriminate Hf.
Defined.

(** On integer coordinates the rectangle has the first corner as its origin
    and reaches the second corner, whatever follows the four coordinates and
    whatever the score. *)
Theorem rectangle_of_integer_corners x0 y0 x1 y1 more s :
  exists rect,
    AllPageAnnotationsHandler.region_to_rectangle
      {| coords := inject_Z x0 :: inject_Z y0 :: inject_Z x1 :: inject_Z y1
                     :: more;
         score := s |} = inr rect
    /\ rect_x rect = x0 /\ rect_y rect = y0
    /\ rect_x rect + rect_w rect = x1
    /\ rect_y rect + rect_h rect = y1.
Proof.
  eexists. split; [reflexivity|]. simpl. unfold py_int. simpl.
  rewrite !Z.quot_1_r. repeat split; lia.
Qed.

Section FileChecks.
Context `{Externals}.

Lemma check_files_none files :
  BookList.check_files files = None <->
  Forall (fun f => is_extension_allowed (BookList.input_filename f)
                     BookList.allowed_extensions = true) files.
Proof.
  induction files as [|f rest IH]; simpl; [by split; [constructor|]|].
  destruct (is_extension_allowed _ _) eqn:Hok; simpl.
  - rewrite IH. split; [by constructor | by intros [_ ?]%Forall_cons].
  - split; [done|]. intros [Hf _]%Forall_cons. congruence.
Qed.

(** The check of the files stops at the first file whose extension is not
    allowed and reports that file's sanitised name; the files before it all
    pass. *)
Theorem check_files_reports_first_offender files name :
  BookList.check_files files = Some name ->
  exists good f rest,
    files = good ++ f :: rest
    /\ Forall (fun g => is_extension_allowed (BookList.input_filename g)
                          BookList.allowed_extensions = true) good
    /\ is_extension_allowed (BookList.input_filename f)
         BookList.allowed_extensions = false
    /\ name = BookList.input_filename f.
Proof.
  induction files as [|f rest IH]; simpl; [done|].
  destruct (is_extension_allowed _ _) eqn:Hok; simpl.
  - intros (good & g & rest' & -> & Hgood & Hbad & Hname)%IH.
    exists (f :: good), g, rest'. repeat split; try done. by constructor.
  - intros [= <-]. exists [], f, rest. repeat split; try done.
Qed.

End FileChecks.

Lemma first_offender_witness :
  exists good f rest,
    [ {| filename := "a.jpg" |}; {| filename := "b.tiff" |};
      {| filename := "c.bmp" |} ] = good ++ f :: rest
    /\ Forall (fun g => is_extension_allowed
                          (BookList.input_filename (H := Examples.externals) g)
                          BookList.allowed_extensions = true) good
    /\ is_extension_allowed
         (BookList.input_filename (H := Examples.externals) f)
         BookList.allowed_extensions = false
    /\ "b.tiff" = BookList.input_filename (H := Examples.externals) f.
Proof.
  apply (@check_files_reports_first_offender Examples.externals). reflexivity.
Defined.

(** ** Further properties: the annotations of a page *)

Lemma filter_system_inferred_raises l :
  (exists a, a ∈ l /\ source a = None) ->
  AllPageAnnotationsHandler.filter_system_inferred l = inl AttributeError.
Proof.
  intros (a & Hin & Hsrc). induction l as [|x r IH]; [by inversion Hin|].
  simpl. unfold AllPageAnnotationsHandler.is_system_inferred.
  apply elem_of_cons in Hin as [<-|Hin].
  - by rewrite Hsrc.
  - rewrite (IH Hin). by destruct (source x).
Qed.

Lemma short_region_raises r :
  (length (coords r) < 4)%nat ->
  AllPageAnnotationsHandler.region_to_rectangle
    (AllPageAnnotationsHandler.del_score r) = inl IndexError.
Proof.
  unfold AllPageAnnotationsHandler.region_to_rectangle. simpl.
  destruct (coords r) as [|q0 [|q1 [|q2 [|q3 l]]]]; simpl; try done. lia.
Qed.

Lemma consistent_values_NoDup c :
  consistent c -> NoDup (map snd (map_to_list c)).
Proof.
  intros Hc. change (NoDup (snd <$> map_to_list c)).
  apply NoDup_fmap_2_strong; [|apply NoDup_map_to_list].
  intros [k1 v1] [k2 v2] H1%elem_of_map_to_list H2%elem_of_map_to_list Heq.
  simpl in Heq. subst v2.
  apply Hc in H1. apply Hc in H2. congruence.
Qed.

Lemma targetting_entities_NoDup c e ty :
  consistent c -> NoDup (JsonObject.get_targetting_entities c e ty).
Proof.
  intros Hc. unfold JsonObject.get_targetting_entities.
  destruct (_id e); [|constructor].
  apply NoDup_ListNoDup, List.NoDup_filter, NoDup_ListNoDup.
  by apply consistent_values_NoDup.
Qed.

Section MoreOnAnnotations.
Context `{Externals}.

(** Whatever the flag, the image and the outcome, the handler leaves every
    stored document as it is and calls the detector at most once. *)
Theorem update_image_annotations_only_adds page page_image force w :
  colln w
    ⊆ colln (fst (AllPageAnnotationsHandler.update_image_annotations
                    page page_image force w))
  /\ (detect_calls
        (fst (AllPageAnnotationsHandler.update_image_annotations
                page page_image force w)) <= S (detect_calls w))%nat.
Proof.
  unfold AllPageAnnotationsHandler.update_image_annotations.
  pose proof (detect_and_annotate_frame page page_image w) as Hframe.
  destruct (AllPageAnnotationsHandler.detect_and_annotate page page_image w)
    as [w' r].
  destruct (Hframe w' r eq_refl) as [Hsub Hcalls].
  destruct (JsonObject.get_targetting_entities _ _ _) as [|a known].
  - simpl. split; [done | lia].
  - destruct force; [|simpl; split; [done | lia]].
    destruct (AllPageAnnotationsHandler.filter_system_inferred _)
      as [e|[|s si]]; simpl; split; try done; lia.
Qed.

(** With the force flag, a known annotation that carries no source makes
    the handler raise [AttributeError] before the detector is reached;
    nothing is written. *)
Theorem forced_call_needs_sources page page_image w :
  (exists a,
     a ∈ JsonObject.get_targetting_entities (colln w) page
           (Some ImageAnnotation_wire_typeid)
     /\ source a = None) ->
  AllPageAnnotationsHandler.update_image_annotations page page_image true w
    = (w, inl AttributeError).
Proof.
  intros Hbad. pose proof (filter_system_inferred_raises _ Hbad) as Hraise.
  unfold AllPageAnnotationsHandler.update_image_annotations.
  destruct (JsonObject.get_targetting_entities _ _ _) as [|a known].
  - destruct Hbad as (a & Hin & _). by inversion Hin.
  - by rewrite Hraise.
Qed.

(** The loop on regions of four coordinates or more, in full: the new
    annotations are pairwise distinct, each is stored under an id the
    collection did not have, and the collection holds nothing else new. *)
Lemma annotate_regions_new_documents page page_id regions acc w :
  _id page = Some page_id ->
  is_Some (colln w !! page_id) ->
  Forall (fun r => (4 <= length (coords r))%nat) regions ->
  (forall rect, schema_valid (inferred_annotation page_id rect) = true) ->
  exists w' new,
    AllPageAnnotationsHandler.annotate_regions page regions acc w
      = (w', inr (acc ++ new))
    /\ length new = length regions
    /\ NoDup new
    /\ (forall a, a ∈ new ->
          exists i rect, a = set_id i (inferred_annotation page_id rect)
            /\ colln w !! i = None /\ colln w' !! i = Some a)
    /\ (forall k v, colln w' !! k = Some v ->
          colln w !! k = Some v \/ v ∈ new).
Proof.
  intros Hid Hpage Hregs Hschema. revert acc w Hpage.
  induction Hregs as [|reg rest Hreg Hrest IH]; intros acc w Hpage.
  - exists w, []. simpl. rewrite app_nil_r.
    repeat split; try done; [constructor | by intros a ?%elem_of_nil | tauto].
  - destruct (region_to_rectangle_total reg Hreg) as [rect Hrect].
    rewrite (annotate_regions_step page page_id reg rect rest acc w
               Hid Hpage Hrect (Hschema rect)). cbv zeta.
    set (i := fresh (dom (colln w))).
    set (a := set_id i (inferred_annotation page_id rect)).
    assert (Hfresh : colln w !! i = None) by apply fresh_id_unused.
    destruct (IH (acc ++ [a]) (set_colln (<[i := a]> (colln w)) w))
      as (w' & new & Hrun & Hlen & Hnodup & Hnew & Honly).
    { rewrite colln_set_colln, lookup_insert. case_decide; [by eexists|done]. }
    exists w', (a :: new). rewrite Hrun, <- app_assoc.
    destruct (annotate_regions_frame _ _ _ _ _ _ Hrun) as [Hsub _].
    rewrite colln_set_colln in Hsub.
    assert (Hstored : colln w' !! i = Some a).
    { eapply lookup_weaken; [|exact Hsub]. apply lookup_insert_eq. }
    split; [done|]. split; [simpl; by rewrite Hlen|]. split; [|split].
    + constructor; [|done]. intros Hin.
      destruct (Hnew a Hin) as (j & rect' & Ha & Hnone & _).
      rewrite colln_set_colln in Hnone.
      apply lookup_insert_None in Hnone as [_ Hne].
      apply (f_equal _id) in Ha. simpl in Ha. congruence.
    + intros a' [->|Hin]%elem_of_cons.
      * by exists i, rect.
      * destruct (Hnew a' Hin) as (j & rect' & Ha & Hnone & Hsome).
        exists j, rect'. repeat split; try done.
        rewrite colln_set_colln in Hnone.
        by apply lookup_insert_None in Hnone as [? _].
    + intros k v Hk. destruct (Honly k v Hk) as [Hold|Hin].
      * rewrite colln_set_colln in Hold.
        apply lookup_insert_Some in Hold as [[<- <-]|[_ Hold]].
        -- right. apply elem_of_cons. by left.
        -- by left.
      * right. apply elem_of_cons. by right.
Qed.

(** A region with fewer than four coordinates makes the handler raise
    [IndexError] when its turn comes: the annotations of the regions before
    it stay in the collection (nothing is rolled back) and the regions after
    it are not looked at. *)
Theorem short_region_stops_detection page page_id page_image force good bad
    rest w :
  _id page = Some page_id ->
  is_Some (colln w !! page_id) ->
  JsonObject.get_targetting_entities (colln w) page
    (Some ImageAnnotation_wire_typeid) = [] ->
  text_regions page_image = good ++ bad :: rest ->
  Forall (fun r => (4 <= length (coords r))%nat) good ->
  (length (coords bad) < 4)%nat ->
  (forall rect, schema_valid (inferred_annotation page_id rect) = true) ->
  exists w',
    AllPageAnnotationsHandler.update_image_annotations page page_image force w
      = (w', inl IndexError)
    /\ colln w ⊆ colln w'
    /\ size (colln w') = (size (colln w) + length good)%nat
    /\ detect_calls w' = S (detect_calls w).
Proof.
  intros Hid Hpage Hnone Hregions Hgood Hbad Hschema.
  rewrite update_image_annotations_none, detect_and_annotate_unfold by done.
  rewrite Hregions.
  set (w0 := {| colln := colln w; detect_calls := S (detect_calls w) |}).
  assert (Hloop : forall acc w1,
            is_Some (colln w1 !! page_id) ->
            exists w',
              AllPageAnnotationsHandler.annotate_regions page
                (good ++ bad :: rest) acc w1 = (w', inl IndexError)
              /\ size (colln w') = (size (colln w1) + length good)%nat).
  { clear Hregions Hnone Hpage. induction Hgood as [|reg good' Hreg _ IH];
      intros acc w1 Hpage1.
    - exists w1. simpl. unfold bind at 1, lift at 1. rewrite Hid. simpl.
      unfold bind at 1, lift at 1.
      rewrite (short_region_raises bad Hbad). split; [done | lia].
    - destruct (region_to_rectangle_total reg Hreg) as [rect Hrect].
      simpl app.
      rewrite (annotate_regions_step page page_id reg rect _ acc w1
                 Hid Hpage1 Hrect (Hschema rect)). cbv zeta.
      destruct (IH (acc ++ [set_id (fresh (dom (colln w1)))
                              (inferred_annotation page_id rect)])
                  (set_colln (<[fresh (dom (colln w1)) :=
                                  set_id (fresh (dom (colln w1)))
                                    (inferred_annotation page_id rect)]>
                                (colln w1)) w1)) as (w' & Hrun & Hsize).
      { rewrite colln_set_colln, lookup_insert.
        case_decide; [by eexists|done]. }
      exists w'. split; [done|].
      rewrite Hsize, colln_set_colln,
        map_size_insert_None by apply fresh_id_unused.
      simpl. lia. }
  destruct (Hloop [] w0 Hpage) as (w' & Hrun & Hsize).
  exists w'. split; [done|].
  destruct (annotate_regions_frame _ _ _ _ _ _ Hrun) as [Hsub Hcalls].
  done.
Qed.

(** When the detector finds nothing on a page without annotations, the
    handler answers with the empty list and stores nothing, so the page
    stays without annotations and the next call runs the detector again. *)
Theorem empty_detection_is_repeated page page_image force force' w :
  JsonObject.get_targetting_entities (colln w) page
    (Some ImageAnnotation_wire_typeid) = [] ->
  text_regions page_image = [] ->
  exists w1 w2,
    AllPageAnnotationsHandler.update_image_annotations page page_image force w
      = (w1, inr [])
    /\ AllPageAnnotationsHandler.update_image_annotations page page_image
         force' w1 = (w2, inr [])
    /\ colln w2 = colln w
    /\ detect_calls w1 = S (detect_calls w)
    /\ detect_calls w2 = S (S (detect_calls w)).
Proof.
  intros Hnone Hregions.
  exists {| colln := colln w; detect_calls := S (detect_calls w) |},
         {| colln := colln w; detect_calls := S (S (detect_calls w)) |}.
  rewrite !update_image_annotations_none, !detect_and_annotate_unfold by done.
  rewrite Hregions. done.
Qed.

Lemma annotate_regions_consistent page regions acc w w' r :
  consistent (colln w) ->
  AllPageAnnotationsHandler.annotate_regions page regions acc w = (w', r) ->
  consistent (colln w').
Proof.
  revert acc w. induction regions as [|reg rest IH]; intros acc w Hc Hrun.
  - by inversion Hrun; subst.
  - simpl in Hrun. unfold bind at 1, lift at 1 in Hrun.
    destruct (getattr (_id page)) as [x|page_id]; simpl in Hrun;
      [by inversion Hrun; subst|].
    unfold bind at 1, lift at 1 in Hrun.
    destruct (AllPageAnnotationsHandler.region_to_rectangle _) as [x|rect];
      [by inversion Hrun; subst|].
    unfold bind at 1 in Hrun.
    destruct (JsonObject.update_collection _ None w) as [w1 r1] eqn:Hup.
    pose proof (upsert_consistent _ _ _ _ _ Hc Hup) as Hc1.
    destruct r1 as [x|a]; [by inversion Hrun; subst|].
    by eapply IH.
Qed.

Lemma filter_system_inferred_all l :
  Forall (fun a => (source_type <$> source a) = Some "system_inferred") l ->
  AllPageAnnotationsHandler.filter_system_inferred l = inr l.
Proof.
  induction 1 as [|a l Ha _ IH]; [done|]. simpl. rewrite IH.
  unfold AllPageAnnotationsHandler.is_system_inferred.
  destruct (source a) as [src|]; [|done]. simpl in *.
  injection Ha as ->. done.
Qed.

(** After the handler has created annotations for a stored page that had
    none, a further call, with or without the force flag, does not call the
    detector and writes nothing; it answers with the annotations of the
    first call, in the order of the store. *)
Theorem detection_runs_once_per_page page page_id page_image page_image'
    force force' w :
  consistent (colln w) ->
  _id page = Some page_id ->
  is_Some (colln w !! page_id) ->
  JsonObject.get_targetting_entities (colln w) page
    (Some ImageAnnotation_wire_typeid) = [] ->
  text_regions page_image <> [] ->
  Forall (fun r => (4 <= length (coords r))%nat) (text_regions page_image) ->
  (forall rect, schema_valid (inferred_annotation page_id rect) = true) ->
  exists w1 first second,
    AllPageAnnotationsHandler.update_image_annotations page page_image force w
      = (w1, inr first)
    /\ AllPageAnnotationsHandler.update_image_annotations page page_image'
         force' w1 = (w1, inr second)
    /\ second ≡ₚ first
    /\ length first = length (text_regions page_image)
    /\ detect_calls w1 = S (detect_calls w).
Proof.
  intros Hcons Hid Hpage Hnone Hsome Hregs Hschema.
  rewrite update_image_annotations_none, detect_and_annotate_unfold by done.
  set (w0 := {| colln := colln w; detect_calls := S (detect_calls w) |}).
  destruct (annotate_regions_new_documents page page_id
              (text_regions page_image) [] w0 Hid Hpage Hregs Hschema)
    as (w1 & first & Hrun & Hlen & Hnodup & Hnew & Honly).
  simpl in Hrun.
  destruct (annotate_regions_frame _ _ _ _ _ _ Hrun) as [Hsub Hcalls].
  assert (Hcons1 : consistent (colln w1))
    by (eapply annotate_regions_consistent; [|exact Hrun]; exact Hcons).
  set (second := JsonObject.get_targetting_entities (colln w1) page
                   (Some ImageAnnotation_wire_typeid)).
  assert (Hsame : forall a, a ∈ second <-> a ∈ first).
  { intros a. unfold second. rewrite targetting_entities_elem. split.
    - intros (cid & Hcid & [k Hk] & Hf).
      destruct (Honly k a Hk) as [Hold|Hin]; [|done].
      assert (Hin : a ∈ JsonObject.get_targetting_entities (colln w) page
                          (Some ImageAnnotation_wire_typeid)).
      { apply targetting_entities_elem. exists cid.
        split; [done|]. split; [by exists k | done]. }
      rewrite Hnone in Hin. by apply elem_of_nil in Hin.
    - intros Hin. destruct (Hnew a Hin) as (i & rect & -> & _ & Hstored).
      exists page_id. split; [done|]. split; [by exists i|].
      unfold JsonObject.names_container, JsonObject.has_type. simpl.
      by rewrite String.eqb_refl. }
  assert (Hperm : second ≡ₚ first).
  { apply NoDup_Permutation; [|done|done].
    by apply targetting_entities_NoDup. }
  assert (Hne : second <> []).
  { intros Hnil. rewrite Hnil in Hperm.
    apply Permutation_nil_l in Hperm. subst first.
    destruct (text_regions page_image); [done | discriminate Hlen]. }
  assert (Hall : Forall (fun a => (source_type <$> source a)
                                  = Some "system_inferred") second).
  { apply Forall_forall. intros a Ha%Hsame.
    by destruct (Hnew a Ha) as (i & rect & -> & _). }
  exists w1, first, second. split; [done|]. split; [|done].
  destruct force'.
  - rewrite (update_image_annotations_forced page page_image' w1 second Hne
               (filter_system_inferred_all _ Hall)).
    fold second. by destruct second.
  - by rewrite update_image_annotations_known.
Qed.

(** api_v1.py's handler is rest.py's with the force flag off. *)
Theorem earlier_handler_is_unforced_handler page page_image w :
  ApiV1.update_image_annotations page page_image w =
    AllPageAnnotationsHandler.update_image_annotations page page_image false w.
Proof.
  unfold ApiV1.update_image_annotations,
    AllPageAnnotationsHandler.update_image_annotations.
  by destruct (JsonObject.get_targetting_entities _ _ _).
Qed.

End MoreOnAnnotations.

Lemma forced_call_needs_sources_witness :
  AllPageAnnotationsHandler.update_image_annotations (H := Examples.externals)
    Examples.page Examples.one_region_image true
    Samples.annotated_without_source
  = (Samples.annotated_without_source, inl AttributeError).
Proof.
  apply (@forced_call_needs_sources Examples.externals).
  exists Samples.sourceless_annotation. split; [|reflexivity].
  vm_compute. apply list_elem_of_here.
Defined.

Lemma short_region_witness :
  exists w',
    AllPageAnnotationsHandler.update_image_annotations
      (H := Examples.externals) Examples.page Samples.short_region_image false
      Examples.bare_page = (w', inl IndexError)
    /\ colln Examples.bare_page ⊆ colln w'
    /\ size (colln w') = (size (colln Examples.bare_page) + 1)%nat
    /\ detect_calls w' = S (detect_calls Examples.bare_page).
Proof.
  apply (@short_region_stops_detection Examples.externals Examples.page "p1"
           Samples.short_region_image false
           [Examples.region [1#1; 2#1; 3#1; 4#1]%Q]
           (Examples.region [1#1; 2#1; 3#1]%Q)
           [Examples.region [5#1; 6#1; 7#1; 8#1]%Q]).
  - reflexivity.
  - vm_compute. by eexists.
  - vm_compute. reflexivity.
  - reflexivity.
  - repeat constructor.
  - simpl. lia.
  - intros rect. reflexivity.
Defined.

Lemma empty_detection_witness :
  exists w1 w2,
    AllPageAnnotationsHandler.update_image_annotations
      (H := Examples.externals) Examples.page Samples.blank_image false
      Examples.bare_page = (w1, inr [])
    /\ AllPageAnnotationsHandler.update_image_annotations
         (H := Examples.externals) Examples.page Samples.blank_image false w1
       = (w2, inr [])
    /\ colln w2 = colln Examples.bare_page
    /\ detect_calls w1 = S (detect_calls Examples.bare_page)
    /\ detect_calls w2 = S (S (detect_calls Examples.bare_page)).
Proof.
  apply (@empty_detection_is_repeated Examples.externals).
  - vm_compute. reflexivity.
  - reflexivity.
Defined.

Lemma detection_runs_once_witness :
  exists w1 first second,
    AllPageAnnotationsHandler.update_image_annotations
      (H := Examples.externals) Examples.page Examples.scenario_image false
      Examples.bare_page = (w1, inr first)
    /\ AllPageAnnotationsHandler.update_image_annotations
         (H := Examples.externals) Examples.page Examples.scenario_image
         true w1 = (w1, inr second)
    /\ second ≡ₚ first
    /\ length first = length (text_regions Examples.scenario_image)
    /\ detect_calls w1 = S (detect_calls Examples.bare_page).
Proof.
  apply (@detection_runs_once_per_page Examples.externals Examples.page "p1").
  - unfold consistent. apply (bool_decide_unpack _). vm_compute. exact I.
  - reflexivity.
  - vm_compute. by eexists.
  - vm_compute. reflexivity.
  - discriminate.
  - repeat constructor; simpl; lia.
  - intros rect. reflexivity.
Defined.

(** ** Further properties: the route of the page annotations *)

Lemma fill_descendents_content c node depth ty :
  content (JsonObjectNode.fill_descendents c node depth ty) = content node.
Proof.
  unfold JsonObjectNode.fill_descendents. by destruct (Z.to_nat depth).
Qed.

Section AnnotationsRoute.
Context `{Externals}.

(** [GET /pages/<id>/annotations] on a stored page that has annotations,
    flag 0. The page image is loaded first: when that raises, the handler
    raises the same exception, although the annotations are known and the
    image would not have been used. When the image loads, the answer is 200
    with one tree for each known annotation, in their order, each rooted at
    its annotation. Either way the world is as before. *)
Theorem annotated_page_route_is_read_only load_image page_id page w :
  colln w !! page_id = Some page ->
  JsonObject.get_targetting_entities (colln w) page
    (Some ImageAnnotation_wire_typeid) <> [] ->
  exists trees,
    map content trees
      = JsonObject.get_targetting_entities (colln w) page
          (Some ImageAnnotation_wire_typeid)
    /\ PageAnnotationsRoute.get load_image page_id 0 w
       = (w, match load_image page with
             | inl e => inl e
             | inr _ => inr {| body := JsonTrees trees; code := 200 |}
             end).
Proof.
  intros Hpage Hknown. unfold PageAnnotationsRoute.get, JsonObject.from_id.
  rewrite Hpage. unfold bind at 1, lift at 1.
  eexists. split; [|destruct (load_image page) as [e|img]; [reflexivity|]].
  2: { unfold bind. simpl negb.
       rewrite update_image_annotations_known by done. reflexivity. }
  rewrite !map_map. simpl.
  rewrite <- (map_id (JsonObject.get_targetting_entities _ _ _)) at 2.
  apply map_ext. intros a. by rewrite fill_descendents_content.
Qed.

End AnnotationsRoute.

Lemma annotated_page_route_witness :
  exists trees,
    map content trees
      = JsonObject.get_targetting_entities (colln Examples.annotated_by_both)
          Examples.page (Some ImageAnnotation_wire_typeid)
    /\ PageAnnotationsRoute.get (H := Examples.externals)
         (fun _ => inl IOError) "p1" 0 Examples.annotated_by_both
       = (Examples.annotated_by_both, inl IOError).
Proof.
  apply (@annotated_page_route_is_read_only Examples.externals
           (fun _ => inl IOError)).
  - vm_compute. reflexivity.
  - vm_compute. discriminate.
Defined.

(** The same request when the image can be read. *)
Example annotated_page_route_with_image :
  exists trees,
    PageAnnotationsRoute.get (H := Examples.externals)
      (fun _ => inr Examples.one_region_image) "p1" 0
      Examples.annotated_by_both
    = (Examples.annotated_by_both,
       inr {| body := JsonTrees trees; code := 200 |})
    /\ map content trees
       = [Examples.user_annotation; Examples.system_annotation].
Proof. eexists. split; vm_compute; reflexivity. Qed.

(** ** Further properties: uploading a book *)

Section MoreOnUploads.
Context `{Externals}.

(** One turn of the upload loop on a stored book: the page is filed under an
    id no document has, and only then are its files saved. *)
Lemma save_pages_step session book book_id idx f rest w :
  _id book = Some book_id ->
  is_Some (colln w !! book_id) ->
  schema_valid (upload_page (idx + 1) book_id) = true ->
  BookList.save_pages session book idx (f :: rest) w =
    (let i := fresh (dom (colln w)) in
     let page := set_id i (upload_page (idx + 1) book_id) in
     let w1 := set_colln (<[i := page]> (colln w)) w in
     match save_page_files page f with
     | Some e => (w1, inl e)
     | None => BookList.save_pages session book (idx + 1) rest w1
     end).
Proof.
  intros Hid Hbook Hschema. simpl.
  unfold bind at 1, lift at 1. rewrite Hid. simpl.
  unfold bind at 1. fold (upload_page (idx + 1) book_id).
  destruct (upsert_outcome (upload_page (idx + 1) book_id) (user session) w)
    as [[Hres _]|[(_ & Hs & _)|(_ & _ & Hr)]].
  - exfalso. revert Hres. unfold JsonObject.targets_resolvable. simpl.
    rewrite bool_decide_eq_true_2; done.
  - congruence.
  - rewrite Hr. simpl. by destruct (save_page_files _ f).
Qed.

(** The loop when every file can be saved: one page for each file, numbered
    in upload order from the index after [idx], each under a new id. *)
Lemma save_pages_succeeds session book book_id files idx w :
  _id book = Some book_id ->
  is_Some (colln w !! book_id) ->
  (forall k, schema_valid (upload_page k book_id) = true) ->
  (forall page f, f ∈ files -> save_page_files page f = None) ->
  exists w',
    BookList.save_pages session book idx files w = (w', inr tt)
    /\ colln w ⊆ colln w'
    /\ size (colln w') = (size (colln w) + length files)%nat
    /\ forall k, (k < length files)%nat ->
         exists i, colln w !! i = None
           /\ colln w' !! i
              = Some (set_id i (upload_page (idx + 1 + Z.of_nat k) book_id)).
Proof.
  intros Hid Hbook Hschema Hsave. revert idx w Hbook.
  induction files as [|f rest IH]; intros idx w Hbook.
  - exists w. split; [done|]. split; [done|]. split; [simpl; lia|].
    intros k Hk. simpl in Hk. lia.
  - rewrite (save_pages_step session book book_id idx f rest w Hid Hbook
               (Hschema _)). cbv zeta.
    set (i := fresh (dom (colln w))).
    set (page := set_id i (upload_page (idx + 1) book_id)).
    rewrite (Hsave page f) by apply list_elem_of_here.
    assert (Hfresh : colln w !! i = None) by apply fresh_id_unused.
    destruct (IH (fun p g Hg => Hsave p g (list_elem_of_further _ _ _ Hg))
                (idx + 1) (set_colln (<[i := page]> (colln w)) w))
      as (w' & Hrun & Hsub & Hsize & Hpages).
    { rewrite colln_set_colln, lookup_insert. case_decide; [by eexists|done]. }
    rewrite colln_set_colln in Hsub, Hsize.
    exists w'. split; [done|]. split; [|split].
    + etrans; [|exact Hsub]. by apply insert_subseteq.
    + rewrite Hsize, map_size_insert_None by done. simpl. lia.
    + intros [|k] Hk.
      * exists i. split; [done|].
        replace (idx + 1 + Z.of_nat 0) with (idx + 1) by lia.
        eapply lookup_weaken; [|exact Hsub]. apply lookup_insert_eq.
      * destruct (Hpages k) as (j & Hnone & Hsome); [simpl in Hk; lia|].
        exists j. rewrite colln_set_colln in Hnone.
        apply lookup_insert_None in Hnone as [Hnone _].
        split; [done|].
        replace (idx + 1 + Z.of_nat (S k)) with (idx + 1 + 1 + Z.of_nat k)
          by lia.
        done.
Qed.

(** The loop stops at the first file that cannot be saved. Its page entity
    is already written by then, like those of the files before it; the files
    after it get no page. *)
Theorem save_pages_stops_at_first_failure session book book_id good bad rest
    e idx w :
  _id book = Some book_id ->
  is_Some (colln w !! book_id) ->
  (forall k, schema_valid (upload_page k book_id) = true) ->
  (forall page f, f ∈ good -> save_page_files page f = None) ->
  (forall page, save_page_files page bad = Some e) ->
  exists w',
    BookList.save_pages session book idx (good ++ bad :: rest) w = (w', inl e)
    /\ colln w ⊆ colln w'
    /\ size (colln w') = (size (colln w) + length good + 1)%nat.
Proof.
  intros Hid Hbook Hschema Hgood Hbad. revert idx w Hbook.
  induction good as [|f good IH]; intros idx w Hbook.
  - simpl app.
    rewrite (save_pages_step session book book_id idx bad rest w Hid Hbook
               (Hschema _)). cbv zeta. rewrite Hbad.
    eexists. split; [done|]. rewrite colln_set_colln.
    split; [by apply insert_subseteq, fresh_id_unused|].
    rewrite map_size_insert_None by apply fresh_id_unused. simpl. lia.
  - simpl app.
    rewrite (save_pages_step session book book_id idx f _ w Hid Hbook
               (Hschema _)). cbv zeta.
    rewrite (Hgood _ f) by apply list_elem_of_here.
    destruct (IH (fun p g Hg => Hgood p g (list_elem_of_further _ _ _ Hg))
                (idx + 1)
                (set_colln (<[fresh (dom (colln w)) :=
                                set_id (fresh (dom (colln w)))
                                  (upload_page (idx + 1) book_id)]>
                              (colln w)) w))
      as (w' & Hrun & Hsub & Hsize).
    { rewrite colln_set_colln, lookup_insert. case_decide; [by eexists|done]. }
    rewrite colln_set_colln in Hsub, Hsize.
    exists w'. split; [done|]. split.
    + etrans; [|exact Hsub]. by apply insert_subseteq, fresh_id_unused.
    + rewrite Hsize, map_size_insert_None by apply fresh_id_unused.
      simpl. lia.
Qed.

(** An answer of [POST /books] other than 200 and 419 is one of 401, 405,
    417 and 418, and it comes with the world as it was: nothing is written
    before the checks are through. *)
Theorem upload_refusals_write_nothing session form w w' resp :
  BookList.post session form w = (w', inr resp) ->
  code resp <> 200 ->
  code resp <> 419 ->
  w' = w /\ In (code resp) [401; 405; 417; 418].
Proof.
  unfold BookList.post.
  destruct (permitted session); simpl;
    [|intros [= <- <-] _ _; simpl; tauto].
  destruct (BookList.is_image_book _); simpl;
    [|intros [= <- <-] _ _; simpl; tauto].
  destruct (_id (BookList.book_json form));
    [intros [= <- <-] _ _; simpl; tauto|].
  destruct (BookList.check_files _);
    [intros [= <- <-] _ _; simpl; tauto|].
  unfold bind at 1.
  destruct (JsonObject.update_collection _ _ w) as [w1 [e|book]]; [done|].
  unfold bind at 1, try at 1.
  destruct (BookList.save_pages _ _ _ _ w1) as [w2 [e|[]]].
  - unfold bind at 1.
    destruct (node_delete_spec (JsonObjectNode.from_details book) None w2)
      as (w3 & Hdel & _).
    rewrite Hdel. intros [= <- <-]. simpl. done.
  - intros [= <- <-]. simpl. done.
Qed.

(** An answer 200 or 419 is only given to a permitted caller, for an image
    [BookPortion] without [_id], when every file name has an allowed
    extension. *)
Theorem upload_is_attempted_only_after_checks session form w w' resp :
  BookList.post session form w = (w', inr resp) ->
  code resp = 200 \/ code resp = 419 ->
  permitted session = true
  /\ base_data (BookList.book_json form) = Some "image"
  /\ jsonClass (BookList.book_json form) = "BookPortion"
  /\ _id (BookList.book_json form) = None
  /\ Forall (fun f => is_extension_allowed (BookList.input_filename f)
                        BookList.allowed_extensions = true)
            (BookList.in_files form).
Proof.
  unfold BookList.post.
  destruct (permitted session); simpl;
    [|intros [= <- <-] [|]; discriminate].
  destruct (BookList.is_image_book _) eqn:Himage; simpl;
    [|intros [= <- <-] [|]; discriminate].
  destruct (_id (BookList.book_json form));
    [intros [= <- <-] [|]; discriminate|].
  destruct (BookList.check_files _) eqn:Hfiles;
    [intros [= <- <-] [|]; discriminate|].
  intros _ _. apply check_files_none in Hfiles.
  unfold BookList.is_image_book in Himage.
  destruct (base_data (BookList.book_json form)) as [bd|]; [|done].
  apply andb_true_iff in Himage as [Hbd Hclass].
  apply String.eqb_eq in Hbd, Hclass. subst bd. done.
Qed.

(** A permitted upload of an image book whose files all have an allowed
    extension and can all be saved is answered 200 with the tree of the
    stored book, which has a new id; the collection keeps what it had and
    gains exactly the book and one page for each file, the page of file [k]
    a new document with title [pg_k] that targets the book. Nothing is said
    of what else the stored documents hold. *)
Theorem upload_stores_book_and_pages session form w :
  permitted session = true ->
  BookList.is_image_book (BookList.book_json form) = true ->
  _id (BookList.book_json form) = None ->
  Forall (fun f => is_extension_allowed (BookList.input_filename f)
                     BookList.allowed_extensions = true)
         (BookList.in_files form) ->
  JsonObject.targets_resolvable (colln w) (BookList.book_json form) = true ->
  schema_valid (BookList.book_json form) = true ->
  (forall k i, schema_valid (upload_page k i) = true) ->
  (forall page f, f ∈ BookList.in_files form ->
                  save_page_files page f = None) ->
  exists w' tree book_id,
    BookList.post session form w
      = (w', inr {| body := JsonTree tree; code := 200 |})
    /\ _id (content tree) = Some book_id
    /\ colln w !! book_id = None
    /\ colln w' !! book_id = Some (content tree)
    /\ colln w ⊆ colln w'
    /\ size (colln w')
       = (size (colln w) + 1 + length (BookList.in_files form))%nat
    /\ forall k, (k < length (BookList.in_files form))%nat ->
         exists i page,
           colln w !! i = None
           /\ colln w' !! i = Some page
           /\ _id page = Some i
           /\ title page = Some ("pg_" +:+ pretty (Z.of_nat k))
           /\ JsonObject.names_container book_id page = true.
Proof.
  intros Hperm Himage Hnoid Hfiles Hres Hschema Hpages Hsave.
  apply check_files_none in Hfiles.
  unfold BookList.post. rewrite Hperm, Himage, Hnoid, Hfiles. simpl.
  unfold bind at 1.
  destruct (upsert_outcome (BookList.book_json form) (user session) w)
    as [[Hbad _]|[(_ & Hbad & _)|(_ & _ & Hr)]]; [congruence..|].
  rewrite Hr, Hnoid. simpl.
  set (book_id := fresh (dom (colln w))).
  set (book := set_id book_id (BookList.book_json form)).
  set (w1 := set_colln (<[book_id := book]> (colln w)) w).
  assert (Hfresh : colln w !! book_id = None) by apply fresh_id_unused.
  destruct (save_pages_succeeds session book book_id (BookList.in_files form)
              (-1) w1 eq_refl) as (w' & Hrun & Hsub & Hsize & Hall).
  { unfold w1. rewrite colln_set_colln, lookup_insert_eq. by eexists. }
  { intros k. apply Hpages. }
  { exact Hsave. }
  unfold bind at 1, try at 1. rewrite Hrun.
  unfold w1 in Hsub, Hsize. rewrite colln_set_colln in Hsub, Hsize.
  eexists w', _, book_id. split; [reflexivity|].
  rewrite fill_descendents_content. simpl.
  split; [done|]. split; [done|]. split; [|split; [|split]].
  - eapply lookup_weaken; [|exact Hsub]. apply lookup_insert_eq.
  - etrans; [|exact Hsub]. by apply insert_subseteq.
  - rewrite Hsize, map_size_insert_None by done. lia.
  - intros k Hk. destruct (Hall k Hk) as (i & Hnone & Hsome).
    exists i, (set_id i (upload_page (Z.of_nat k) book_id)).
    unfold w1 in Hnone. rewrite colln_set_colln in Hnone.
    apply lookup_insert_None in Hnone as [Hnone _]. split; [done|].
    replace (-1 + 1 + Z.of_nat k) with (Z.of_nat k) in Hsome by lia.
    split; [done|]. split; [done|]. split; [done|].
    unfold JsonObject.names_container. simpl. by rewrite String.eqb_refl.
Qed.

(** When the database is found and the book has a [base_data], api_v1.py's
    upload handler does what rest.py's does. *)
Theorem earlier_upload_agrees session form w :
  is_Some (base_data (BookList.book_json form)) ->
  ApiV1.post true session form w = BookList.post session form w.
Proof.
  intros [bd Hbd]. unfold ApiV1.post, BookList.post, BookList.is_image_book.
  destruct (permitted session); simpl; [|done].
  unfold bind at 1, lift at 1. rewrite Hbd. simpl.
  destruct (String.eqb bd "image"), (String.eqb (jsonClass _) "BookPortion");
    done.
Qed.

(** On a book without [base_data] the two differ: api_v1.py reads the
    attribute and raises [AttributeError], rest.py checks for it first and
    answers 417; neither writes. *)
Theorem earlier_upload_needs_base_data session form w :
  permitted session = true ->
  base_data (BookList.book_json form) = None ->
  ApiV1.post true session form w = (w, inl AttributeError)
  /\ BookList.post session form w
     = (w, inr (error_response
                  "Only image books can be uploaded with this API" 417)).
Proof.
  intros Hperm Hbd.
  unfold ApiV1.post, BookList.post, BookList.is_image_book.
  rewrite Hperm, Hbd. done.
Qed.

End MoreOnUploads.

Lemma save_pages_stops_witness :
  exists w',
    BookList.save_pages (H := Examples.externals) Examples.editor
      Examples.stored_book (-1)
      ([ {| filename := "a.jpg" |} ] ++ {| filename := "corrupt.jpg" |}
         :: [ {| filename := "b.png" |} ]) Examples.book_stored
      = (w', inl IOError)
    /\ colln Examples.book_stored ⊆ colln w'
    /\ size (colln w') = (size (colln Examples.book_stored) + 1 + 1)%nat.
Proof.
  apply (@save_pages_stops_at_first_failure Examples.externals Examples.editor
           Examples.stored_book "0").
  - reflexivity.
  - vm_compute. by eexists.
  - intros k. reflexivity.
  - intros page f Hf. apply list_elem_of_singleton in Hf. subst f.
    reflexivity.
  - intros page. reflexivity.
Defined.

Lemma upload_refusal_witness :
  Examples.bare_page = Examples.bare_page
  /\ In (code (error_response "overwriting p1 is not allowed" 405))
        [401; 405; 417; 418].
Proof.
  apply (@upload_refusals_write_nothing Examples.externals Examples.editor
           Examples.upload_on_stored_book Examples.bare_page
           Examples.bare_page
           (error_response "overwriting p1 is not allowed" 405)).
  - vm_compute. reflexivity.
  - discriminate.
  - discriminate.
Defined.

Lemma upload_attempt_witness :
  permitted Examples.editor = true
  /\ base_data (BookList.book_json Examples.upload_with_corrupt_file)
     = Some "image"
  /\ jsonClass (BookList.book_json Examples.upload_with_corrupt_file)
     = "BookPortion"
  /\ _id (BookList.book_json Examples.upload_with_corrupt_file) = None
  /\ Forall (fun f => is_extension_allowed
                        (BookList.input_filename (H := Examples.externals) f)
                        BookList.allowed_extensions = true)
            (BookList.in_files Examples.upload_with_corrupt_file).
Proof.
  apply (@upload_is_attempted_only_after_checks Examples.externals
           Examples.editor Examples.upload_with_corrupt_file
           Examples.bare_page
           (fst (BookList.post (H := Examples.externals) Examples.editor
                   Examples.upload_with_corrupt_file Examples.bare_page))
           (error_response "Unexpected error while saving files: IOError"
              419)).
  - vm_compute. reflexivity.
  - by right.
Defined.

Lemma upload_stores_witness :
  exists w' tree book_id,
    BookList.post (H := Examples.externals) Examples.editor
      (Samples.upload_of Examples.new_book ["a.jpg"; "b.png"])
      Examples.bare_page
      = (w', inr {| body := JsonTree tree; code := 200 |})
    /\ _id (content tree) = Some book_id
    /\ colln Examples.bare_page !! book_id = None
    /\ colln w' !! book_id = Some (content tree)
    /\ colln Examples.bare_page ⊆ colln w'
    /\ size (colln w') = (size (colln Examples.bare_page) + 1 + 2)%nat
    /\ forall k, (k < 2)%nat ->
         exists i page,
           colln Examples.bare_page !! i = None
           /\ colln w' !! i = Some page
           /\ _id page = Some i
           /\ title page = Some ("pg_" +:+ pretty (Z.of_nat k))
           /\ JsonObject.names_container book_id page = true.
Proof.
  apply (@upload_stores_book_and_pages Examples.externals Examples.editor
           (Samples.upload_of Examples.new_book ["a.jpg"; "b.png"])
           Examples.bare_page).
  - reflexivity.
  - reflexivity.
  - reflexivity.
  - repeat constructor.
  - reflexivity.
  - reflexivity.
  - intros k i. reflexivity.
  - intros page f Hf. simpl in Hf.
    apply elem_of_cons in Hf as [->|Hf]; [reflexivity|].
    apply list_elem_of_singleton in Hf. subst f. reflexivity.
Defined.

Lemma earlier_upload_agrees_witness :
  ApiV1.post (H := Examples.externals) true Examples.editor
    Examples.upload_with_corrupt_file Examples.bare_page
  = BookList.post (H := Examples.externals) Examples.editor
      Examples.upload_with_corrupt_file Examples.bare_page.
Proof.
  apply (@earlier_upload_agrees Examples.externals). simpl. by eexists.
Defined.

Lemma earlier_upload_needs_base_data_witness :
  ApiV1.post (H := Examples.externals) true Examples.editor
    (Samples.upload_of Samples.bare_book ["a.jpg"]) Examples.bare_page
  = (Examples.bare_page, inl AttributeError)
  /\ BookList.post (H := Examples.externals) Examples.editor
       (Samples.upload_of Samples.bare_book ["a.jpg"]) Examples.bare_page
     = (Examples.bare_page,
        inr (error_response
               "Only image books can be uploaded with this API" 417)).
Proof.
  apply (@earlier_upload_needs_base_data Examples.externals);
    reflexivity.
Defined.

(** ** Further properties: posting and deleting trees *)

Section MoreOnTrees.
Context `{Externals}.

(** The error answers of the loop of [post] are the two of the handler. *)
Lemma post_nodes_error_shape session nodes w w' resp :
  EntityListHandler.post_nodes session nodes w = (w', inr (inl resp)) ->
  exists message, body resp = ErrorBody message.
Proof.
  revert w. induction nodes as [|n nodes IH]; intros w; [done|].
  simpl. unfold bind at 1, try at 1.
  destruct (JsonObjectNode.update_collection n (user session) w)
    as [w1 [e|n']].
  - destruct e; intros [= <- <-]; by eexists.
  - unfold bind at 1.
    destruct (EntityListHandler.post_nodes session nodes w1)
      as [w2 [e|[resp'|nodes']]] eqn:Hrest; intros [= <- <-].
    by eapply IH.
Qed.

(** A 200 answer of [post] is a successful run of its loop. *)
Lemma post_success_loop session nodes w w' nodes' :
  permitted session = true ->
  EntityListHandler.post session nodes w
    = (w', inr {| body := JsonTrees nodes'; code := 200 |}) ->
  EntityListHandler.post_nodes session nodes w = (w', inr (inr nodes')).
Proof.
  intros Hperm. unfold EntityListHandler.post. rewrite Hperm. simpl.
  unfold bind.
  destruct (EntityListHandler.post_nodes session nodes w)
    as [w1 [e|[resp|nodes'']]] eqn:Hloop; [done| |].
  - intros [= <- ->].
    apply post_nodes_error_shape in Hloop as [message Hbody]. done.
  - by intros [= <- <-].
Qed.

(** Trees sent in one request are handled like the same trees sent in two
    requests, one after the other, when the first part goes through: the
    world is that of the second request, and so is the answer, with the trees
    of the first part put in front when it is a success. *)
Theorem post_in_one_request_or_two session pre pre' rest w w1 :
  permitted session = true ->
  EntityListHandler.post session pre w
    = (w1, inr {| body := JsonTrees pre'; code := 200 |}) ->
  EntityListHandler.post session (pre ++ rest) w =
    (let (w2, r) := EntityListHandler.post session rest w1 in
     (w2, match r with
          | inl e => inl e
          | inr resp =>
              inr match body resp with
                  | JsonTrees rest' =>
                      {| body := JsonTrees (pre' ++ rest');
                         code := code resp |}
                  | _ => resp
                  end
          end)).
Proof.
  intros Hperm Hpre%post_success_loop; [|done].
  unfold EntityListHandler.post. rewrite Hperm. simpl. unfold bind.
  rewrite (post_nodes_after_prefix _ _ _ _ _ _ Hpre).
  destruct (EntityListHandler.post_nodes session rest w1)
    as [w2 [e|[resp|rest']]] eqn:Hrest; try done.
  apply post_nodes_error_shape in Hrest as [message Hbody].
  unfold ret. by rewrite Hbody.
Qed.

End MoreOnTrees.

(** For a depth of 1 or more, the trees [GET /entities/<id>/targetters]
    answers with (no class given) are the children of the tree
    [GET /entities/<id>] answers with, for an entity filed under its id. *)
Theorem targetters_are_the_children id entity depth w :
  colln w !! id = Some entity ->
  _id entity = Some id ->
  1 <= depth ->
  exists trees,
    EntityHandler.get id (Some depth) w
      = (w, inr {| body := JsonTree (Node entity trees); code := 200 |})
    /\ EntityTargettersHandler.get id (Some depth) None w
      = (w, inr {| body := JsonTrees trees; code := 200 |}).
Proof.
  intros Hlook Hid Hdepth.
  unfold EntityHandler.get, EntityTargettersHandler.get, JsonObject.from_id.
  rewrite Hlook. simpl.
  unfold JsonObjectNode.fill_descendents. simpl.
  replace (Z.to_nat depth) with (S (Z.to_nat (depth - 1))) by lia.
  simpl. eexists. split; [reflexivity|].
  rewrite map_map. simpl.
  unfold JsonObject.get_targetting_entities. simpl. by rewrite Hid.
Qed.

Lemma post_in_two_witness :
  EntityListHandler.post (H := Examples.externals) Examples.editor
    ([Node Examples.fresh_annotation []]
       ++ [Node Examples.dangling_annotation []]) Examples.bare_page
  = (let (w2, r) :=
       EntityListHandler.post (H := Examples.externals) Examples.editor
         [Node Examples.dangling_annotation []] Examples.first_tree_stored in
     (w2, match r with
          | inl e => inl e
          | inr resp =>
              inr match body resp with
                  | JsonTrees rest' =>
                      {| body :=
                           JsonTrees
                             ([Node (set_id "0" Examples.fresh_annotation) []]
                                ++ rest');
                         code := code resp |}
                  | _ => resp
                  end
          end)).
Proof.
  apply (@post_in_one_request_or_two Examples.externals Examples.editor
           [Node Examples.fresh_annotation []]
           [Node (set_id "0" Examples.fresh_annotation) []]
           [Node Examples.dangling_annotation []]
           Examples.bare_page Examples.first_tree_stored).
  - reflexivity.
  - vm_compute. reflexivity.
Defined.

Lemma targetters_children_witness :
  exists trees,
    EntityHandler.get "p1" (Some 2) Examples.annotated_by_both
      = (Examples.annotated_by_both,
         inr {| body := JsonTree (Node Examples.page trees); code := 200 |})
    /\ EntityTargettersHandler.get "p1" (Some 2) None
         Examples.annotated_by_both
      = (Examples.annotated_by_both,
         inr {| body := JsonTrees trees; code := 200 |}).
Proof.
  apply (targetters_are_the_children "p1" Examples.page 2
           Examples.annotated_by_both).
  - vm_compute. reflexivity.
  - reflexivity.
  - lia.
Defined.

